(** * Git Paste Patch: the extension's [applyPatch] pipeline

    A shallow embedding of [src/extension.ts].  The extension is glue between
    two interfaces it does not implement: the [diff] library ([Diff.parsePatch],
    [Diff.applyPatch]) and the editor host ([vscode.*]).  Both are kept as
    interfaces (type classes); the extension's own code is written against them
    in a small state/exception monad that also records every call made to the
    host, so that statements such as "no file edit is issued" are statements
    about the recorded calls.

    Strings are [string]; a character stands for one code unit below 256. *)

From Stdlib Require Import String Ascii List Bool Arith Lia.
From stdpp Require Import base option list gmap strings.

Import ListNotations.
Local Open Scope string_scope.
Local Open Scope list_scope.

(** ** JavaScript string operations used by the extension *)

Module JsString.

Definition CR : ascii := "013"%char.
Definition LF : ascii := "010"%char.
Definition DQ : ascii := "034"%char.

(** WhiteSpace and LineTerminator code units below 256, the characters
    [String.prototype.trim] removes: TAB, LF, VT, FF, CR, SP and NBSP. *)
Definition is_white_space (c : ascii) : bool :=
  match nat_of_ascii c with
  | 9 | 10 | 11 | 12 | 13 | 32 | 160 => true
  | _ => false
  end.

Fixpoint trimStart (s : string) : string :=
  match s with
  | EmptyString => EmptyString
  | String c s' => if is_white_space c then trimStart s' else s
  end.

Definition trimEnd (s : string) : string :=
  String.rev (trimStart (String.rev s)).

(** [s.trim()] *)
Definition trim (s : string) : string := trimEnd (trimStart s).

(** Truthiness of a string: only the empty string is falsy. *)
Definition truthy (s : string) : bool :=
  match s with EmptyString => false | String _ _ => true end.

(** [s.startsWith(p)] *)
Definition startsWith (s p : string) : bool := String.prefix p s.

(** [s.substring(n)]: the part of [s] from index [n] (clamped) on. *)
Fixpoint substring (s : string) (n : nat) : string :=
  match n, s with
  | 0, _ => s
  | S _, EmptyString => EmptyString
  | S n', String _ s' => substring s' n'
  end.

(** [s.replace(/pat/g, rep)] for a literal, non-empty pattern: matches are
    taken left to right and do not overlap; [skip] counts the characters of
    the current match that remain to be passed over. *)
Fixpoint replace_from (pat rep : string) (skip : nat) (s : string) : string :=
  match s with
  | EmptyString => EmptyString
  | String c s' =>
      match skip with
      | S k => replace_from pat rep k s'
      | 0 =>
          if String.prefix pat s
          then rep ++ replace_from pat rep (String.length pat - 1) s'
          else String c (replace_from pat rep 0 s')
      end
  end.

Definition replaceAll (s pat rep : string) : string :=
  replace_from pat rep 0 s.

End JsString.

(** ** Values exchanged with the library and the host *)

(** A URI, identified with its [toString()] form. *)
Definition Uri : Type := string.

(** A thrown value: [e.message] and [String(e)]. *)
Record Exn : Type := mkExn { exn_message : string; exn_toString : string }.

(** Outcome of a call that may throw (or of an awaited promise that may
    reject). *)
Inductive Res (A : Type) : Type :=
| Ok (a : A)
| Throw (e : Exn).
Arguments Ok {A} a.
Arguments Throw {A} e.

(** The [diff] package, as far as the extension uses it.  [applyPatch]
    answers [Ok None] for the library's [false]. *)
Module Diff.
Class Lib (ParsedDiff : Type) : Type := {
  oldFileName : ParsedDiff -> option string;
  newFileName : ParsedDiff -> option string;
  parsePatch : string -> Res (list ParsedDiff);
  applyPatch : string -> ParsedDiff -> Res (option string)
}.
End Diff.

Record WorkspaceFolder : Type := { folder_uri : Uri }.
Record TextDocument : Type := { doc_uri : Uri; getText : string }.
Record Position : Type := { line : nat; character : nat }.
Record TextEditor : Type := { editor_document_uri : Uri; viewColumn : nat }.

(** The operations a [vscode.WorkspaceEdit] is built from. *)
Inductive EditOp : Type :=
| EditCreateFile (uri : Uri) (ignoreIfExists : bool)
| EditInsert (uri : Uri) (at_ : Position) (newText : string)
| EditReplace (uri : Uri) (start end_ : Position) (newText : string).

Definition WorkspaceEdit : Type := list EditOp.

Definition edit_uri (op : EditOp) : Uri :=
  match op with
  | EditCreateFile u _ => u
  | EditInsert u _ _ => u
  | EditReplace u _ _ _ => u
  end.

(** The texts an edit writes. *)
Definition edit_texts (edit : WorkspaceEdit) : list string :=
  flat_map (fun op => match op with
                      | EditCreateFile _ _ => []
                      | EditInsert _ _ t => [t]
                      | EditReplace _ _ _ t => [t]
                      end) edit.

(** Webview messages *)
Inductive MessageKind : Type := msg_paste | msg_apply.
Record WebviewMessage : Type := { msg_type : MessageKind; msg_text : option string }.

(** Messages the extension posts to the input view. *)
Inductive ViewMessage : Type :=
| msg_fill (text : string)
| msg_clear.

(** The input view handed to [resolveWebviewView]. *)
Record WebviewView : Type := { view_id : nat }.

(** Result model *)
Inductive ResultKind : Type := kind_ok | kind_new | kind_fail.
Record ResultEntry : Type := { kind : ResultKind; text : string }.

(** The results page: the static markup and style sheet of [resultsHtml]
    carry no data and are left out; what remains are the two counters and the
    body. *)
Record ResultsPage : Type := {
  page_ok : nat;
  page_ko : nat;
  page_body : string
}.

(** The editor host, as far as the extension uses it.  [W] is the state of
    the host (files, clipboard, open editors, ...), which only the host
    interprets. *)
Module vscode.
Class Host (W : Type) : Type := {
  workspaceFolders : W -> option (list WorkspaceFolder);
  joinPath : Uri -> string -> Uri;
  positionAt : TextDocument -> nat -> Position;
  openTextDocument : Uri -> W -> W * Res TextDocument;
  applyEdit : WorkspaceEdit -> W -> W * Res bool;
  save : TextDocument -> W -> W * Res bool;
  visibleTextEditors : W -> list TextEditor;
  showTextDocument : TextDocument -> nat -> W -> W;
  showWarningMessage : string -> W -> W;
  showErrorMessage : string -> W -> W;
  createWebviewPanel : ResultsPage -> W -> W;
  clipboard_readText : W -> W * string;
  clipboard_writeText : string -> W -> W;
  postMessage : WebviewView -> ViewMessage -> W -> W
}.
End vscode.

(** Calls the extension makes, in the order it makes them. *)
Inductive Event (ParsedDiff : Type) : Type :=
| EvParsePatch (patchContent : string)
| EvDiffApplyPatch (source : string) (filePatch : ParsedDiff)
| EvShowWarningMessage (msg : string)
| EvShowErrorMessage (msg : string)
| EvOpenTextDocument (uri : Uri)
| EvApplyEdit (edit : WorkspaceEdit)
| EvSave (uri : Uri)
| EvShowTextDocument (uri : Uri) (column : nat)
| EvCreateWebviewPanel (page : ResultsPage)
| EvClipboardReadText
| EvClipboardWriteText (text : string)
| EvPostMessage (msg : ViewMessage).
Arguments EvParsePatch {ParsedDiff}.
Arguments EvDiffApplyPatch {ParsedDiff}.
Arguments EvShowWarningMessage {ParsedDiff}.
Arguments EvShowErrorMessage {ParsedDiff}.
Arguments EvOpenTextDocument {ParsedDiff}.
Arguments EvApplyEdit {ParsedDiff}.
Arguments EvSave {ParsedDiff}.
Arguments EvShowTextDocument {ParsedDiff}.
Arguments EvCreateWebviewPanel {ParsedDiff}.
Arguments EvClipboardReadText {ParsedDiff}.
Arguments EvClipboardWriteText {ParsedDiff}.
Arguments EvPostMessage {ParsedDiff}.

Definition is_library_call {P} (ev : Event P) : bool :=
  match ev with
  | EvParsePatch _ | EvDiffApplyPatch _ _ => true
  | _ => false
  end.

(** The calls made to the host. *)
Definition host_calls {P} (t : list (Event P)) : list (Event P) :=
  List.filter (fun ev => negb (is_library_call ev)) t.

(** The edits submitted to the host. *)
Definition edits_of {P} (t : list (Event P)) : list WorkspaceEdit :=
  flat_map (fun ev => match ev with EvApplyEdit e => [e] | _ => [] end) t.

(** The patches handed to [Diff.applyPatch]. *)
Definition patches_applied {P} (t : list (Event P)) : list P :=
  flat_map (fun ev => match ev with EvDiffApplyPatch _ p => [p] | _ => [] end) t.

(** ** The monad: host state, recorded calls, exceptions *)

Section Monad.
Context {P W : Type}.

Definition M (A : Type) : Type := W -> W * list (Event P) * Res A.

Definition ret {A} (a : A) : M A := fun w => (w, [], Ok a).

Definition bind {A B} (m : M A) (f : A -> M B) : M B :=
  fun w =>
    match m w with
    | (w1, t1, Ok a) => let '(w2, t2, r) := f a w1 in (w2, t1 ++ t2, r)
    | (w1, t1, Throw e) => (w1, t1, Throw e)
    end.

(** [try { m } catch (e) { h e }] *)
Definition try_catch {A} (m : M A) (h : Exn -> M A) : M A :=
  fun w =>
    match m w with
    | (w1, t1, Ok a) => (w1, t1, Ok a)
    | (w1, t1, Throw e) => let '(w2, t2, r) := h e w1 in (w2, t1 ++ t2, r)
    end.

(** A host call that may throw. *)
Definition call {A} (ev : Event P) (op : W -> W * Res A) : M A :=
  fun w => let '(w1, r) := op w in (w1, [ev], r).

(** A host call that returns nothing the extension waits for. *)
Definition fire (ev : Event P) (op : W -> W) : M unit :=
  fun w => (op w, [ev], Ok tt).

(** A call into the library, which has no state of its own. *)
Definition pure_call {A} (ev : Event P) (r : Res A) : M A :=
  fun w => (w, [ev], r).

(** Reading a property of the host. *)
Definition read {A} (f : W -> A) : M A := fun w => (w, [], Ok (f w)).

Definition world_of {A} (o : W * list (Event P) * Res A) : W := fst (fst o).
Definition trace_of {A} (o : W * list (Event P) * Res A) : list (Event P) :=
  snd (fst o).
Definition result_of {A} (o : W * list (Event P) * Res A) : Res A := snd o.
End Monad.

Declare Scope ext_scope.
Delimit Scope ext_scope with ext.
Notation "x <- m ;; f" := (bind m (fun x => f))
  (at level 100, m at next level, right associativity) : ext_scope.
Notation "m ;;; f" := (bind m (fun _ => f))
  (at level 100, right associativity) : ext_scope.

(** ** The results page *)

Module Html.
Import JsString.

(** A double-quoted attribute value. *)
Definition q (s : string) : string := String DQ (s ++ String DQ "").

Definition nl : string := String LF "".

Definition icon (m : ResultEntry) : string :=
  match kind m with
  | kind_ok => "<span class=" ++ q "codicon codicon-check ok" ++ "></span>"
  | kind_new => "<span class=" ++ q "codicon codicon-new-file new" ++ "></span>"
  | kind_fail => "<span class=" ++ q "codicon codicon-error ko" ++ "></span>"
  end.

(** The [<li>] element of one message. *)
Definition li (m : ResultEntry) : string :=
  "<li>" ++ nl
  ++ "      <div class=" ++ q "line-icon" ++ ">" ++ icon m ++ "</div>" ++ nl
  ++ "      <div class=" ++ q "line-text" ++ ">" ++ text m ++ "</div>" ++ nl
  ++ "    </li>".

(** [messages.map(...).join("")] *)
Definition lines (messages : list ResultEntry) : string :=
  String.concat "" (List.map li messages).

Definition body (messages : list ResultEntry) : string :=
  match messages with
  | [] => "<p class=" ++ q "muted" ++ ">No details available.</p>"
  | _ :: _ => "<ul>" ++ lines messages ++ "</ul>"
  end.

Definition resultsHtml (ok ko : nat) (messages : list ResultEntry) : ResultsPage :=
  {| page_ok := ok; page_ko := ko; page_body := body messages |}.
End Html.

(** ** The extension *)

(** The loop variables of [applyPatch]. *)
Record Counters : Type := {
  ok : nat;
  ko : nat;
  messages : list ResultEntry
}.

(** [ok++; messages.push({ kind, text })] *)
Definition count_ok (c : Counters) (k : ResultKind) (t : string) : Counters :=
  {| ok := S (ok c); ko := ko c;
     messages := messages c ++ [{| kind := k; text := t |}] |}.

(** [ko++; messages.push({ kind: "fail", text })] *)
Definition count_ko (c : Counters) (t : string) : Counters :=
  {| ok := ok c; ko := S (ko c);
     messages := messages c ++ [{| kind := kind_fail; text := t |}] |}.

Record PatchViewProvider : Type := { view : option WebviewView }.

Section Extension.
Context {P W : Type} {lib : Diff.Lib P} {host : vscode.Host W}.
Import JsString.
Local Open Scope ext_scope.

Local Abbreviation M := (@M P W).

(** [a || b] on optional strings: [a] unless it is undefined or empty. *)
Definition or_else (a b : option string) : option string :=
  match a with
  | Some s => if truthy s then a else b
  | None => b
  end.

(** [workspaceFolders?.[0]] *)
Definition first_folder (fs : option (list WorkspaceFolder)) : option WorkspaceFolder :=
  match fs with
  | Some (f :: _) => Some f
  | _ => None
  end.

(** Lines 196-200: the relative path of an entry, [None] when the loop
    [continue]s. *)
Definition relPath (filePatch : P) : option string :=
  match or_else (Diff.newFileName filePatch) (Diff.oldFileName filePatch) with
  | None => None
  | Some relPath =>
      if negb (truthy relPath) || String.eqb relPath "/dev/null" then None
      else
        let relPath :=
          if startsWith relPath "a/" then substring relPath 2 else relPath in
        let relPath :=
          if startsWith relPath "b/" then substring relPath 2 else relPath in
        Some (replaceAll relPath "\" "/")
  end.

Definition showWarningMessage (msg : string) : M unit :=
  fire (EvShowWarningMessage msg) (vscode.showWarningMessage msg).

Definition showErrorMessage (msg : string) : M unit :=
  fire (EvShowErrorMessage msg) (vscode.showErrorMessage msg).

Definition openTextDocument (uri : Uri) : M TextDocument :=
  call (EvOpenTextDocument uri) (vscode.openTextDocument uri).

Definition Diff_applyPatch (source : string) (filePatch : P) : M (option string) :=
  pure_call (EvDiffApplyPatch source filePatch) (Diff.applyPatch source filePatch).

Definition Diff_parsePatch (patchContent : string) : M (list P) :=
  pure_call (EvParsePatch patchContent) (Diff.parsePatch patchContent).

Definition applyEdit (edit : WorkspaceEdit) : M bool :=
  call (EvApplyEdit edit) (vscode.applyEdit edit).

Definition save (doc : TextDocument) : M bool :=
  call (EvSave (doc_uri doc)) (vscode.save doc).

Definition clipboard_readText : M string :=
  fun w => let '(w1, s) := vscode.clipboard_readText w in
           (w1, [EvClipboardReadText], Ok s).

Definition showTextDocument (doc : TextDocument) (column : nat) : M unit :=
  fire (EvShowTextDocument (doc_uri doc) column) (vscode.showTextDocument doc column).

(** Lines 205-216: open the target, an exception meaning "no such file". *)
Definition open_original (targetUri : Uri) : M (option TextDocument * string * bool) :=
  try_catch
    (document <- openTextDocument targetUri;;
     ret (Some document, getText document, true))
    (fun _ => ret (None, "", false)).

(** Lines 227-234 *)
Definition build_edit (targetUri : Uri) (document : option TextDocument)
           (originalText patchedText : string) : WorkspaceEdit :=
  match document with
  | None =>
      [ EditCreateFile targetUri true;
        EditInsert targetUri {| line := 0; character := 0 |} patchedText ]
  | Some document =>
      [ EditReplace (doc_uri document)
          (vscode.positionAt document 0)
          (vscode.positionAt document (String.length originalText))
          patchedText ]
  end.

(** Lines 204-257: the body of the outer [try]. *)
Definition try_file (c : Counters) (filePatch : P) (relPath : string)
           (targetUri : Uri) : M Counters :=
  opened <- open_original targetUri;;
  let '(document, originalText, existed) := opened in
  let normalizedOriginal := replaceAll originalText (String CR (String LF "")) (String LF "") in
  patchedText <- Diff_applyPatch normalizedOriginal filePatch;;
  match patchedText with
  | None => ret (count_ko c (relPath ++ ": patch failed."))
  | Some patchedText =>
      let edit := build_edit targetUri document originalText patchedText in
      success <- applyEdit edit;;
      if success : bool then
        docToSave <- match document with
                     | Some d => ret d
                     | None => openTextDocument targetUri
                     end;;
        save docToSave;;;
        editors <- read vscode.visibleTextEditors;;
        match List.find (fun e => String.eqb (editor_document_uri e) (doc_uri docToSave))
                        editors with
        | Some editor => showTextDocument docToSave (viewColumn editor)
        | None => ret tt
        end;;;
        ret (if existed : bool
             then count_ok c kind_ok (relPath ++ ": patched and saved.")
             else count_ok c kind_new (relPath ++ ": created and patched."))
      else ret (count_ko c (relPath ++ ": could not apply edits."))
  end.

(** Lines 196-261: one iteration of the loop over the parsed entries. *)
Definition for_body (folder : WorkspaceFolder) (c : Counters) (filePatch : P) : M Counters :=
  match relPath filePatch with
  | None => ret c
  | Some relPath =>
      let targetUri := vscode.joinPath (folder_uri folder) relPath in
      try_catch
        (try_file c filePatch relPath targetUri)
        (fun err => ret (count_ko c (relPath ++ ": " ++ exn_toString err)))
  end.

(** [for (const filePatch of files) { ... }] *)
Fixpoint for_of (folder : WorkspaceFolder) (files : list P) (c : Counters) : M Counters :=
  match files with
  | [] => ret c
  | filePatch :: rest =>
      c' <- for_body folder c filePatch;;
      for_of folder rest c'
  end.

(** Results panel (fake modal) *)
Definition showResultPanel (ok ko : nat) (messages : list ResultEntry) : M unit :=
  let page := Html.resultsHtml ok ko messages in
  fire (EvCreateWebviewPanel page) (vscode.createWebviewPanel page).

(** Lines 179-184: parse, reporting a thrown error. *)
Definition parse_or_report (patchContent : string) : M (option (list P)) :=
  try_catch
    (files <- Diff_parsePatch patchContent;; ret (Some files))
    (fun e =>
       showErrorMessage ("Cannot read patch: " ++ exn_message e);;;
       ret None).

(** Apply patch + open custom results panel *)
Definition applyPatch (this : PatchViewProvider) (patchContent : string) : M unit :=
  if negb (truthy (trim patchContent)) then
    showWarningMessage "No patch detected."
  else
    folders <- read vscode.workspaceFolders;;
    match first_folder folders with
    | None => showErrorMessage "Open a workspace folder first."
    | Some folder =>
        parsed <- parse_or_report patchContent;;
        match parsed with
        | None => ret tt
        | Some [] => showWarningMessage "No files found in the patch."
        | Some files =>
            c <- for_of folder files {| ok := 0; ko := 0; messages := [] |};;
            showResultPanel (ok c) (ko c) (messages c);;;
            fire (EvClipboardWriteText "") (vscode.clipboard_writeText "");;;
            match view this with
            | Some v => fire (EvPostMessage msg_clear) (vscode.postMessage v msg_clear)
            | None => ret tt
            end
        end
    end.

(** The [gitPastePatch.apply] command registered by [activate]. *)
Definition gitPastePatch_apply (provider : PatchViewProvider) : M unit :=
  patch <- clipboard_readText;;
  applyPatch provider patch.

(** [resolveWebviewView]: remember the view. *)
Definition resolveWebviewView (this : PatchViewProvider) (v : WebviewView)
  : PatchViewProvider := {| view := Some v |}.

(** The handler [resolveWebviewView] installs with [onDidReceiveMessage]. *)
Definition onDidReceiveMessage (this : PatchViewProvider) (v : WebviewView)
           (msg : option WebviewMessage) : M unit :=
  match msg with
  | Some {| msg_type := msg_paste |} =>
      text <- clipboard_readText;;
      fire (EvPostMessage (msg_fill text)) (vscode.postMessage v (msg_fill text))
  | _ => ret tt
  end;;;
  match msg with
  | Some {| msg_type := msg_apply; msg_text := Some text |} => applyPatch this text
  | _ => ret tt
  end.

End Extension.

(** ** A small host and library to run the extension on

    [Sim.World] is a host reduced to what the extension can observe: a file
    store, the clipboard, the workspace folders, the visible editors, and two
    switches that make [applyEdit] answer [false] and [save] reject.  Documents
    are single lines, so a position is a column.  [Sim.Patch] is a patch entry
    that applies to exactly one source text. *)

Module Sim.
Local Open Scope string_scope.

Record Patch : Type := {
  old_name : option string;
  new_name : option string;
  expects : string;
  yields : Res (option string)
}.

Definition apply_patch (source : string) (p : Patch) : Res (option string) :=
  if String.eqb source (expects p) then yields p else Ok None.

Definition lib (parse : string -> Res (list Patch)) : Diff.Lib Patch :=
  {| Diff.oldFileName := old_name;
     Diff.newFileName := new_name;
     Diff.parsePatch := parse;
     Diff.applyPatch := apply_patch |}.

Record World : Type := {
  files : gmap string string;
  clipboard : string;
  folders : option (list WorkspaceFolder);
  editors : list TextEditor;
  edits_rejected : bool;
  save_rejects : bool;
  posted : list ViewMessage
}.

Definition with_files (w : World) (fs : gmap string string) : World :=
  {| files := fs; clipboard := clipboard w; folders := folders w;
     editors := editors w; edits_rejected := edits_rejected w;
     save_rejects := save_rejects w; posted := posted w |}.

Definition with_clipboard (w : World) (s : string) : World :=
  {| files := files w; clipboard := s; folders := folders w;
     editors := editors w; edits_rejected := edits_rejected w;
     save_rejects := save_rejects w; posted := posted w |}.

Definition with_posted (w : World) (m : ViewMessage) : World :=
  {| files := files w; clipboard := clipboard w; folders := folders w;
     editors := editors w; edits_rejected := edits_rejected w;
     save_rejects := save_rejects w; posted := (posted w ++ [m])%list |}.

Definition not_found : Exn :=
  {| exn_message := "file not found"; exn_toString := "Error: file not found" |}.

Definition disk_full : Exn :=
  {| exn_message := "disk full"; exn_toString := "Error: disk full" |}.

Definition open (uri : Uri) (w : World) : World * Res TextDocument :=
  match files w !! uri with
  | Some t => (w, Ok {| doc_uri := uri; getText := t |})
  | None => (w, Throw not_found)
  end.

Definition apply_op (fs : gmap string string) (op : EditOp) : gmap string string :=
  match op with
  | EditCreateFile u _ =>
      match fs !! u with
      | Some _ => fs
      | None => <[u := ""]> fs
      end
  | EditInsert u p t =>
      match fs !! u with
      | Some c =>
          <[u := (String.substring 0 (character p) c ++ t
                  ++ JsString.substring c (character p))%string]> fs
      | None => fs
      end
  | EditReplace u s e t =>
      match fs !! u with
      | Some c =>
          <[u := (String.substring 0 (character s) c ++ t
                  ++ JsString.substring c (character e))%string]> fs
      | None => fs
      end
  end.

Definition apply_edit (edit : WorkspaceEdit) (w : World) : World * Res bool :=
  if edits_rejected w then (w, Ok false)
  else (with_files w (fold_left apply_op edit (files w)), Ok true).

Definition save_doc (d : TextDocument) (w : World) : World * Res bool :=
  if save_rejects w then (w, Throw disk_full) else (w, Ok true).

Definition host : vscode.Host World :=
  {| vscode.workspaceFolders := folders;
     vscode.joinPath := fun u p => u ++ "/" ++ p;
     vscode.positionAt := fun _ n => {| line := 0; character := n |};
     vscode.openTextDocument := open;
     vscode.applyEdit := apply_edit;
     vscode.save := save_doc;
     vscode.visibleTextEditors := editors;
     vscode.showTextDocument := fun _ _ w => w;
     vscode.showWarningMessage := fun _ w => w;
     vscode.showErrorMessage := fun _ w => w;
     vscode.createWebviewPanel := fun _ w => w;
     vscode.clipboard_readText := fun w => (w, clipboard w);
     vscode.clipboard_writeText := fun s w => with_clipboard w s;
     vscode.postMessage := fun _ m w => with_posted w m |}.

(** A workspace [file:///ws] holding [x.txt] (with CRLF line ends) and
    [y.txt]. *)
Definition root : WorkspaceFolder := {| folder_uri := "file:///ws" |}.

Definition crlf : string := String JsString.CR (String JsString.LF "").
Definition lf : string := String JsString.LF "".

Definition world0 : World :=
  {| files := <["file:///ws/x.txt" := ("one" ++ crlf ++ "two" ++ crlf)%string]>
              (<["file:///ws/y.txt" := "keep"]> ∅);
     clipboard := "patch-1";
     folders := Some [root];
     editors := [{| editor_document_uri := "file:///ws/x.txt"; viewColumn := 2 |}];
     edits_rejected := false;
     save_rejects := false;
     posted := [] |}.

(** Patches [x.txt] in place. *)
Definition patch_x : Patch :=
  {| old_name := Some "a/x.txt"; new_name := Some "b/x.txt";
     expects := "one" ++ lf ++ "two" ++ lf;
     yields := Ok (Some ("one" ++ lf ++ "2" ++ lf)) |}.

(** Creates [new.txt]. *)
Definition patch_new : Patch :=
  {| old_name := Some "/dev/null"; new_name := Some "b/new.txt";
     expects := ""; yields := Ok (Some "hello") |}.

(** Deletes [y.txt]: the new name is [/dev/null]. *)
Definition patch_del : Patch :=
  {| old_name := Some "a/y.txt"; new_name := Some "/dev/null";
     expects := "keep"; yields := Ok (Some "") |}.

(** Does not apply to [y.txt] as it is. *)
Definition patch_stale : Patch :=
  {| old_name := Some "a/y.txt"; new_name := Some "b/y.txt";
     expects := "other"; yields := Ok (Some "never") |}.

(** Has an empty new name, as a [+++] header naming no file gives. *)
Definition patch_unnamed : Patch :=
  {| old_name := Some "a/x.txt"; new_name := Some "";
     expects := ""; yields := Ok None |}.

(** Names its file with both prefixes and a backslash. *)
Definition patch_nested : Patch :=
  {| old_name := None; new_name := Some "a/b/dir\x";
     expects := ""; yields := Ok (Some "x") |}.

Definition parse (s : string) : Res (list Patch) :=
  if String.eqb s "patch-1" then Ok [patch_x; patch_del; patch_new; patch_stale]
  else if String.eqb s "patch-2" then Ok [patch_x]
  else if String.eqb s "garbage" then
    Throw {| exn_message := "Unknown line 1"; exn_toString := "Error: Unknown line 1" |}
  else Ok [].

(** The same workspace on a full disk: edits are accepted, [save]
    rejects. *)
Definition world_full : World :=
  {| files := files world0; clipboard := clipboard world0;
     folders := folders world0; editors := editors world0;
     edits_rejected := false; save_rejects := true; posted := [] |}.

(** The content of the file at [u]. *)
Definition content (w : World) (u : Uri) : option string := files w !! u.

Definition provider0 : PatchViewProvider := {| view := None |}.
Definition provider1 : PatchViewProvider := {| view := Some {| view_id := 1 |} |}.

End Sim.

(** ** Vocabulary of the statements *)

(** String operations as the specification words them, to be compared with
    the JavaScript operations the code calls. *)
Module Spec.
Import JsString.

(** "replacing every occurrence of CR LF with LF" *)
Fixpoint crlf_to_lf (s : string) : string :=
  match s with
  | EmptyString => EmptyString
  | String c s' =>
      match s' with
      | String d s'' =>
          if Ascii.eqb c CR && Ascii.eqb d LF
          then String LF (crlf_to_lf s'')
          else String c (crlf_to_lf s')
      | EmptyString => String c EmptyString
      end
  end.

(** "every backslash is replaced by a forward slash" *)
Fixpoint backslash_to_slash (s : string) : string :=
  match s with
  | EmptyString => EmptyString
  | String c s' =>
      String (if Ascii.eqb c "\"%char then "/"%char else c) (backslash_to_slash s')
  end.

(** "empty or whitespace-only" *)
Definition whitespace_only (s : string) : Prop :=
  Forall (fun c => is_white_space c = true) (list_ascii_of_string s).

(** "a leading [p] is stripped": [s'] is [s] without its leading [p], or
    [s] itself when [s] does not begin with [p]. *)
Definition stripped (p s s' : string) : Prop :=
  s = (p ++ s')%string \/ ((forall r, s <> (p ++ r)%string) /\ s' = s).
End Spec.

Section Vocabulary.
Context {P W : Type} {lib : Diff.Lib P} {host : vscode.Host W}.
Import JsString.

(** The document and the text the loop body works on, from the host's
    answer to [openTextDocument]. *)
Definition document_of (r : W * Res TextDocument) : option TextDocument :=
  match snd r with Ok d => Some d | Throw _ => None end.

Definition original_of (r : W * Res TextDocument) : string :=
  match snd r with Ok d => getText d | Throw _ => "" end.

(** [vscode.Uri.joinPath(folder.uri, relPath)] *)
Definition target (folder : WorkspaceFolder) (rp : string) : Uri :=
  vscode.joinPath (folder_uri folder) rp.

(** The entries the loop [continue]s over. *)
Definition is_skipped (e : P) : bool :=
  match relPath e with None => true | Some _ => false end.

Definition non_skipped (files : list P) : list P :=
  List.filter (fun e => negb (is_skipped e)) files.

(** The name line 196 picks: the new name unless it is undefined or empty,
    the old name otherwise. *)
Definition picks (e : P) (n : string) : Prop :=
  (Diff.newFileName e = Some n /\ n <> "")
  \/ ((Diff.newFileName e = None \/ Diff.newFileName e = Some "")
      /\ Diff.oldFileName e = Some n).

(** The four guards of [applyPatch] are passed. *)
Definition reaches_loop (patchContent : string) (w : W)
           (folder : WorkspaceFolder) (files : list P) : Prop :=
  truthy (trim patchContent) = true
  /\ first_folder (vscode.workspaceFolders w) = Some folder
  /\ Diff.parsePatch patchContent = Ok files
  /\ files <> [].

(** The iterations of the loop: each entry with the counters and the host
    state it is processed in. *)
Fixpoint iterations (folder : WorkspaceFolder) (files : list P) (c : Counters) (w : W)
  : list (P * Counters * W) :=
  match files with
  | [] => []
  | e :: rest =>
      (e, c, w) ::
      match for_body folder c e w with
      | (w', _, Ok c') => iterations folder rest c' w'
      | (_, _, Throw _) => []
      end
  end.

Definition iteration_trace (folder : WorkspaceFolder) (it : P * Counters * W)
  : list (Event P) :=
  let '(e, c, w) := it in trace_of (for_body folder c e w).

(** What [applyPatch] does after the loop. *)
Definition epilogue (this : PatchViewProvider) (c : Counters) : list (Event P) :=
  [ EvCreateWebviewPanel (Html.resultsHtml (ok c) (ko c) (messages c));
    EvClipboardWriteText "" ]
  ++ match view this with
     | Some _ => [EvPostMessage msg_clear]
     | None => []
     end.

(** The counters the loop starts from. *)
Definition no_results : Counters := {| ok := 0; ko := 0; messages := [] |}.

(** The host state [applyPatch] ends in, from the state the loop ends in. *)
Definition after_loop (this : PatchViewProvider) (c : Counters) (w : W) : W :=
  let w1 := vscode.createWebviewPanel
              (Html.resultsHtml (ok c) (ko c) (messages c)) w in
  let w2 := vscode.clipboard_writeText "" w1 in
  match view this with
  | Some v => vscode.postMessage v msg_clear w2
  | None => w2
  end.

(** [m] is the message of entry [e]: its text begins with the entry's
    relative path. *)
Definition message_for (m : ResultEntry) (e : P) : Prop :=
  exists rp tail, relPath e = Some rp /\ text m = (rp ++ ": " ++ tail)%string.

(** The calls made inside the loop. *)
Definition loop_event (ev : Event P) : bool :=
  match ev with
  | EvOpenTextDocument _ | EvDiffApplyPatch _ _ | EvApplyEdit _
  | EvSave _ | EvShowTextDocument _ _ => true
  | _ => false
  end.

Definition is_success (m : ResultEntry) : bool :=
  match kind m with kind_ok | kind_new => true | kind_fail => false end.

Definition is_failure (m : ResultEntry) : bool :=
  match kind m with kind_fail => true | _ => false end.

Definition count_if (f : ResultEntry -> bool) (ms : list ResultEntry) : nat :=
  length (List.filter f ms).

(** What the extension relies on from the host as to files: [content w u]
    is the content of the file at [u] in host state [w]. *)
Record HostContract (content : W -> Uri -> option string) : Prop := {
  open_returns_asked :
    forall u w w' d, vscode.openTextDocument u w = (w', Ok d) -> doc_uri d = u;
  open_frame :
    forall u w v, content (fst (vscode.openTextDocument u w)) v = content w v;
  edit_frame :
    forall edit w v,
      (forall op, In op edit -> edit_uri op <> v) ->
      content (fst (vscode.applyEdit edit w)) v = content w v;
  save_frame :
    forall d w v, doc_uri d <> v -> content (fst (vscode.save d w)) v = content w v;
  show_frame :
    forall d col w v, content (vscode.showTextDocument d col w) v = content w v;
  warning_frame :
    forall m w v, content (vscode.showWarningMessage m w) v = content w v;
  error_frame :
    forall m w v, content (vscode.showErrorMessage m w) v = content w v;
  panel_frame :
    forall p w v, content (vscode.createWebviewPanel p w) v = content w v;
  clipboard_frame :
    forall s w v, content (vscode.clipboard_writeText s w) v = content w v;
  post_frame :
    forall vw m w v, content (vscode.postMessage vw m w) v = content w v
}.
End Vocabulary.

(** The extension on the small host. *)
Module Scenario.
Definition lib : Diff.Lib Sim.Patch := Sim.lib Sim.parse.

Definition body (c : Counters) (e : Sim.Patch) (w : Sim.World)
  : Sim.World * list (Event Sim.Patch) * Res Counters :=
  for_body (lib := lib) (host := Sim.host) Sim.root c e w.

Definition run (this : PatchViewProvider) (patchContent : string) (w : Sim.World)
  : Sim.World * list (Event Sim.Patch) * Res unit :=
  applyPatch (lib := lib) (host := Sim.host) this patchContent w.
End Scenario.

(** ** The script of the input view

    Lines 147-158 of [mainHtml]: the two buttons post a message to the
    extension, and the [message] listener sets the text area. *)
Module MainView.
Import JsString.

(** [vscode.postMessage({ type: 'paste' })] *)
Definition pasteButton_click : WebviewMessage :=
  {| msg_type := msg_paste; msg_text := None |}.

(** [vscode.postMessage({ type: 'apply', text: patchArea.value })] *)
Definition applyButton_click (patchArea : string) : WebviewMessage :=
  {| msg_type := msg_apply; msg_text := Some patchArea |}.

(** What a text area hands out as its [value]: the text assigned to it with
    every CR LF, and then every CR left, turned into LF. *)
Fixpoint normalize_newlines (s : string) : string :=
  match s with
  | EmptyString => EmptyString
  | String c s' =>
      if Ascii.eqb c CR
      then match s' with
           | String d s'' =>
               if Ascii.eqb d LF
               then String LF (normalize_newlines s'')
               else String LF (normalize_newlines s')
           | EmptyString => String LF EmptyString
           end
      else String c (normalize_newlines s')
  end.

(** The [message] listener: the [value] of the text area, as the script
    reads it back, after [data] arrived. *)
Definition on_message (data : ViewMessage) (patchArea : string) : string :=
  match data with
  | msg_fill text => normalize_newlines (if truthy text then text else "")
  | msg_clear => ""
  end.

(** The text area after the messages posted during a run arrived, in
    order. *)
Definition deliver {P} (t : list (Event P)) (patchArea : string) : string :=
  fold_left (fun area ev =>
               match ev with
               | EvPostMessage data => on_message data area
               | _ => area
               end) t patchArea.
End MainView.

(** The body of the results page as it is to be shown, written out: a
    paragraph when there is nothing to list, otherwise a list with one item
    per message, in the order of the messages, each item made of the icon of
    the message's kind and of the message's text. *)
Module Shown.
Import JsString.
Local Open Scope string_scope.

Definition dq : string := String DQ "".
Definition newline : string := String LF "".

Definition icon_classes (k : ResultKind) : string :=
  match k with
  | kind_ok => "codicon codicon-check ok"
  | kind_new => "codicon codicon-new-file new"
  | kind_fail => "codicon codicon-error ko"
  end.

Definition before_text (k : ResultKind) : string :=
  "<li>" ++ newline
  ++ "      <div class=" ++ dq ++ "line-icon" ++ dq ++ ">"
  ++ "<span class=" ++ dq ++ icon_classes k ++ dq ++ "></span>"
  ++ "</div>" ++ newline
  ++ "      <div class=" ++ dq ++ "line-text" ++ dq ++ ">".

Definition after_text : string :=
  "</div>" ++ newline ++ "    </li>".

Definition item (m : ResultEntry) : string :=
  before_text (kind m) ++ text m ++ after_text.

Fixpoint items (ms : list ResultEntry) : string :=
  match ms with
  | [] => ""
  | m :: rest => item m ++ items rest
  end.

Definition nothing_to_list : string :=
  "<p class=" ++ dq ++ "muted" ++ dq ++ ">No details available.</p>".

Definition body (ms : list ResultEntry) : string :=
  match ms with
  | [] => nothing_to_list
  | _ :: _ => "<ul>" ++ items ms ++ "</ul>"
  end.
End Shown.

(** The texts handed to [Diff.parsePatch]. *)
Definition parsed_of {P} (t : list (Event P)) : list string :=
  flat_map (fun ev => match ev with EvParsePatch s => [s] | _ => [] end) t.

(** The documents saved. *)
Definition saves_of {P} (t : list (Event P)) : list Uri :=
  flat_map (fun ev => match ev with EvSave u => [u] | _ => [] end) t.

(** What the extension relies on from the host as to the clipboard:
    [clip w] is the text the clipboard holds in host state [w]. *)
Section Clipboard.
Context {W : Type} {host : vscode.Host W}.

Record ClipboardContract (clip : W -> string) : Prop := {
  read_returns_content :
    forall w, snd (vscode.clipboard_readText w) = clip w;
  write_sets_content :
    forall s w, clip (vscode.clipboard_writeText s w) = s;
  post_keeps_content :
    forall v m w, clip (vscode.postMessage v m w) = clip w
}.
End Clipboard.

(** Further situations on the small host. *)
Module Cases.
Import Sim.
Local Open Scope string_scope.

(** The workspace of [world0] on a host that refuses every edit. *)
Definition world_rejecting : World :=
  {| files := files world0; clipboard := clipboard world0;
     folders := folders world0; editors := editors world0;
     edits_rejected := true; save_rejects := false; posted := [] |}.

(** A parser whose patches only delete files. *)
Definition parse_deletions (s : string) : Res (list Patch) :=
  if String.eqb s "deletions" then Ok [patch_del; patch_del] else Ok [].

Definition lib_deletions : Diff.Lib Patch := Sim.lib parse_deletions.

(** The workspace of [world0] with a clipboard text that ends in CR LF. *)
Definition world_windows : World :=
  {| files := files world0; clipboard := "patch-1" ++ crlf;
     folders := folders world0; editors := editors world0;
     edits_rejected := false; save_rejects := false; posted := [] |}.

(** An entry with the names [git diff] writes. *)
Definition patch_git : Patch :=
  {| old_name := Some "a/src\main.c"; new_name := Some "b/src\main.c";
     expects := ""; yields := Ok (Some "int main;") |}.
End Cases.

(** * Properties *)

(** ** Strings *)

Section StringFacts.
Import JsString.

Example trim_blank : JsString.trim (String " " (String JsString.LF " ")) = "".
Proof. reflexivity. Qed.
Example trim_text : JsString.trim "  a b  " = "a b".
Proof. reflexivity. Qed.
Example substring_past_end : JsString.substring "a" 2 = "".
Proof. reflexivity. Qed.
Example replace_backslashes : JsString.replaceAll "a\b\\c" "\" "/" = "a/b//c".
Proof. reflexivity. Qed.

Lemma trimStart_whitespace s :
  Spec.whitespace_only s -> trimStart s = "".
Proof.
  unfold Spec.whitespace_only.
  induction s as [|c s IH]; simpl; intros H; [reflexivity|].
  inversion H as [|? ? Hc Hs]; subst. rewrite Hc. auto.
Qed.

Lemma trim_whitespace s :
  Spec.whitespace_only s -> trim s = "".
Proof.
  intros H. unfold trim. rewrite (trimStart_whitespace s H). reflexivity.
Qed.

Lemma prefix_nil s : String.prefix "" s = true.
Proof. destruct s; reflexivity. Qed.

Lemma prefix_cons a p b s :
  String.prefix (String a p) (String b s) = Ascii.eqb a b && String.prefix p s.
Proof.
  cbn [String.prefix]. fold (String.prefix p s).
  destruct (ascii_dec a b) as [Hab|Hab].
  - subst b. rewrite Ascii.eqb_refl. reflexivity.
  - apply Ascii.eqb_neq in Hab. rewrite Hab. reflexivity.
Qed.

Lemma prefix_crlf c s :
  String.prefix (String CR (String LF "")) (String c s) =
  match s with
  | String d _ => Ascii.eqb c CR && Ascii.eqb d LF
  | EmptyString => false
  end.
Proof.
  rewrite prefix_cons, (Ascii.eqb_sym CR c).
  destruct s as [|d s].
  - destruct (Ascii.eqb c CR); reflexivity.
  - rewrite prefix_cons, prefix_nil, (Ascii.eqb_sym LF d), andb_true_r.
    reflexivity.
Qed.

Lemma replace_from_match pat rep c s :
  replace_from pat rep 0 (String c s) =
  if String.prefix pat (String c s)
  then (rep ++ replace_from pat rep (String.length pat - 1) s)%string
  else String c (replace_from pat rep 0 s).
Proof. reflexivity. Qed.

Lemma replace_from_skip pat rep k c s :
  replace_from pat rep (S k) (String c s) = replace_from pat rep k s.
Proof. reflexivity. Qed.

Lemma crlf_to_lf_cons c d s :
  Spec.crlf_to_lf (String c (String d s)) =
  if Ascii.eqb c CR && Ascii.eqb d LF
  then String LF (Spec.crlf_to_lf s)
  else String c (Spec.crlf_to_lf (String d s)).
Proof. reflexivity. Qed.

(** The code's [replace(/\r\n/g, "\n")] is the specification's
    normalization. *)
Lemma replaceAll_crlf s :
  replaceAll s (String CR (String LF "")) (String LF "") = Spec.crlf_to_lf s.
Proof.
  unfold replaceAll.
  assert (H : forall s,
             replace_from (String CR (String LF "")) (String LF "") 0 s
             = Spec.crlf_to_lf s
             /\ forall c,
               replace_from (String CR (String LF "")) (String LF "") 0 (String c s)
               = Spec.crlf_to_lf (String c s)).
  { clear s. induction s as [|d s [IH1 IH2]].
    - split; [reflexivity|]. intros c.
      rewrite replace_from_match, prefix_crlf. reflexivity.
    - split; [apply IH2|]. intros c.
      rewrite replace_from_match, prefix_crlf, crlf_to_lf_cons.
      destruct (Ascii.eqb c CR && Ascii.eqb d LF).
      + cbn [String.length Nat.sub]. rewrite replace_from_skip, IH1.
        reflexivity.
      + rewrite IH2. reflexivity. }
  apply H.
Qed.

Lemma replaceAll_backslash s :
  replaceAll s "\" "/" = Spec.backslash_to_slash s.
Proof.
  unfold replaceAll.
  induction s as [|c s IH]; [reflexivity|].
  rewrite replace_from_match, prefix_cons, prefix_nil, andb_true_r.
  rewrite (Ascii.eqb_sym "\" c). cbn [Spec.backslash_to_slash].
  destruct (Ascii.eqb c "\"); cbn; rewrite IH; reflexivity.
Qed.

Lemma prefix_app p r : String.prefix p (p ++ r) = true.
Proof.
  induction p as [|a p IH].
  - apply prefix_nil.
  - change (String.prefix (String a p) (String a (p ++ r)) = true).
    rewrite prefix_cons, Ascii.eqb_refl. apply IH.
Qed.

Lemma prefix_split p s :
  String.prefix p s = true -> s = (p ++ substring s (String.length p))%string.
Proof.
  revert s. induction p as [|a p IH]; intros s H.
  - destruct s; reflexivity.
  - destruct s as [|b s]; [discriminate|].
    rewrite prefix_cons in H. apply andb_true_iff in H as [Hab H].
    apply Ascii.eqb_eq in Hab. subst b.
    change (String a s = String a (p ++ substring s (String.length p))).
    f_equal. apply IH, H.
Qed.

Lemma substring_app p r : substring (p ++ r) (String.length p) = r.
Proof.
  induction p as [|a p IH]; simpl; [destruct r; reflexivity | assumption].
Qed.

(** [if (s.startsWith(p)) s = s.substring(p.length)] strips a leading [p]. *)
Lemma strip_stripped p s :
  Spec.stripped p s (if startsWith s p then substring s (String.length p) else s).
Proof.
  unfold Spec.stripped, startsWith.
  destruct (String.prefix p s) eqn:Hp.
  - left. apply prefix_split, Hp.
  - right. split; [|reflexivity].
    intros r ->. rewrite prefix_app in Hp. discriminate.
Qed.

End StringFacts.

(** ** One iteration of the loop *)

Ltac unfold_ext :=
  unfold for_body, try_file, open_original, parse_or_report, showResultPanel,
    openTextDocument, Diff_applyPatch, Diff_parsePatch, applyEdit, save,
    showTextDocument, showWarningMessage, showErrorMessage, clipboard_readText,
    try_catch, bind, call, fire, pure_call, read, ret in *.

(** Case analysis on every answer of the host and of the library. *)
Ltac answers :=
  repeat (cbn beta iota zeta in *; simplify_eq; try case_match).

Section BodyFacts.
Context {P W : Type} {lib : Diff.Lib P} {host : vscode.Host W}.
Import JsString.

Implicit Types (folder : WorkspaceFolder) (c : Counters) (e : P) (w : W).

(** The body catches whatever is thrown while it handles an entry. *)
Lemma for_body_returns folder c e w :
  exists w' t c', for_body folder c e w = (w', t, Ok c').
Proof.
  unfold_ext. answers; eauto.
Qed.

Lemma for_body_events folder c e w :
  Forall (fun ev => loop_event ev = true) (trace_of (for_body folder c e w)).
Proof.
  unfold trace_of. unfold_ext. answers; cbn [fst snd app];
    repeat constructor.
Qed.

Lemma for_body_skip folder c e w :
  relPath e = None -> for_body folder c e w = (w, [], Ok c).
Proof. intros H. unfold for_body. rewrite H. reflexivity. Qed.

(** What one iteration does, by the answers it gets: it opens the target,
    hands the normalized text to the library once, and then either submits
    one edit built from the library's output or submits none. *)
Lemma for_body_run folder c e w rp :
  relPath e = Some rp ->
  let u := target folder rp in
  let o := vscode.openTextDocument u w in
  let src := replaceAll (original_of o) (String CR (String LF "")) (String LF "") in
  exists w' t' c',
    for_body folder c e w
    = (w', EvOpenTextDocument u :: EvDiffApplyPatch src e :: t', Ok c')
    /\ patches_applied t' = []
    /\ match Diff.applyPatch src e with
       | Ok (Some patched) =>
           exists t'',
             t' = EvApplyEdit (build_edit u (document_of o) (original_of o) patched) :: t''
             /\ edits_of t'' = []
             /\ ((exists d, document_of o = Some d
                            /\ c' = count_ok c kind_ok (rp ++ ": patched and saved."))
                 \/ (document_of o = None
                     /\ c' = count_ok c kind_new (rp ++ ": created and patched."))
                 \/ (exists m, c' = count_ko c (rp ++ ": " ++ m)))
       | Ok None =>
           t' = [] /\ w' = fst o /\ c' = count_ko c (rp ++ ": patch failed.")
       | Throw err =>
           t' = [] /\ w' = fst o /\ c' = count_ko c (rp ++ ": " ++ exn_toString err)
       end.
Proof.
  intros Hrp u o src. subst src o. unfold for_body. rewrite Hrp.
  fold (target folder rp). fold u.
  unfold document_of, original_of. unfold_ext.
  destruct (vscode.openTextDocument u w) as [w1 [d|err]] eqn:Hopen; cbn [fst snd];
    cbn beta iota zeta;
    match goal with
    | |- context [Diff.applyPatch ?s e] =>
        destruct (Diff.applyPatch s e) as [[patched|]|err'] eqn:Hlib
    end;
    answers;
    repeat (eexists; try split; try reflexivity; eauto 6).
Qed.
End BodyFacts.

(** ** The loop and the whole of [applyPatch] *)

Section LoopFacts.
Context {P W : Type} {lib : Diff.Lib P} {host : vscode.Host W}.
Import JsString.

Implicit Types (folder : WorkspaceFolder) (c : Counters) (e : P) (w : W).

Lemma for_of_cons folder e rest c w w1 t1 c1 :
  for_body folder c e w = (w1, t1, Ok c1) ->
  for_of folder (e :: rest) c w =
  (world_of (for_of folder rest c1 w1),
   t1 ++ trace_of (for_of folder rest c1 w1),
   result_of (for_of folder rest c1 w1)).
Proof.
  intros H. cbn [for_of]. unfold bind. rewrite H.
  destruct (for_of folder rest c1 w1) as [[w2 t2] r]. reflexivity.
Qed.

Lemma for_of_returns folder files c w :
  exists w' t c', for_of folder files c w = (w', t, Ok c').
Proof.
  revert c w. induction files as [|e rest IH]; intros c w.
  - cbn. unfold ret. eauto.
  - destruct (for_body_returns folder c e w) as (w1 & t1 & c1 & H1).
    destruct (IH c1 w1) as (w2 & t2 & c2 & H2).
    rewrite (for_of_cons _ _ _ _ _ _ _ _ H1), H2. cbn. eauto.
Qed.

(** The loop runs the iterations one after the other, each in the state the
    one before it left, and visits the entries in the order of the list. *)
Lemma for_of_iterations folder files c w :
  trace_of (for_of folder files c w)
  = flat_map (iteration_trace folder) (iterations folder files c w)
  /\ List.map (fun it => fst (fst it)) (iterations folder files c w) = files.
Proof.
  revert c w. induction files as [|e rest IH]; intros c w; [split; reflexivity|].
  destruct (for_body_returns folder c e w) as (w1 & t1 & c1 & H1).
  rewrite (for_of_cons _ _ _ _ _ _ _ _ H1).
  destruct (IH c1 w1) as [IHt IHf].
  cbn [iterations flat_map List.map iteration_trace fst snd].
  rewrite H1, IHf, <- IHt. split; reflexivity.
Qed.

Lemma for_of_events folder files c w :
  Forall (fun ev => loop_event ev = true) (trace_of (for_of folder files c w)).
Proof.
  destruct (for_of_iterations folder files c w) as [-> _].
  induction (iterations folder files c w) as [|[[e c1] w1] its IH];
    cbn [flat_map]; [constructor|].
  apply Forall_app. split; [apply for_body_events | exact IH].
Qed.

Lemma patches_applied_app (t1 t2 : list (Event P)) :
  patches_applied (t1 ++ t2) = patches_applied t1 ++ patches_applied t2.
Proof. apply flat_map_app. Qed.

Lemma edits_of_app (t1 t2 : list (Event P)) :
  edits_of (t1 ++ t2) = edits_of t1 ++ edits_of t2.
Proof. apply flat_map_app. Qed.

(** One iteration on an entry that is not skipped: one library call, one
    message, one counter incremented. *)
Lemma for_body_entry folder c e w rp w' t c' :
  relPath e = Some rp ->
  for_body folder c e w = (w', t, Ok c') ->
  patches_applied t = [e]
  /\ exists m,
      messages c' = messages c ++ [m]
      /\ message_for m e
      /\ ((is_success m = true /\ ok c' = S (ok c) /\ ko c' = ko c)
          \/ (is_failure m = true /\ ok c' = ok c /\ ko c' = S (ko c))).
Proof.
  intros Hrp Hrun.
  destruct (for_body_run folder c e w rp Hrp) as (w2 & t2 & c2 & Heq & Hp & Hcase).
  rewrite Hrun in Heq. injection Heq as -> -> ->.
  split; [change (e :: patches_applied t2 = [e]); rewrite Hp; reflexivity|].
  unfold message_for.
  destruct (Diff.applyPatch _ e) as [[patched|]|err].
  - destruct Hcase as (t3 & -> & _ & [(d & _ & ->)|[(_ & ->)|(m & ->)]]);
      eexists; (split; [reflexivity|]); cbn; eauto 10.
  - destruct Hcase as (_ & _ & ->). eexists; (split; [reflexivity|]); cbn; eauto 10.
  - destruct Hcase as (_ & _ & ->). eexists; (split; [reflexivity|]); cbn; eauto 10.
Qed.

Lemma count_if_app f (l1 l2 : list ResultEntry) :
  count_if f (l1 ++ l2) = count_if f l1 + count_if f l2.
Proof. unfold count_if. rewrite List.filter_app, length_app. reflexivity. Qed.

Lemma non_skipped_cons e (rest : list P) :
  non_skipped (e :: rest) =
  match relPath e with
  | Some _ => e :: non_skipped rest
  | None => non_skipped rest
  end.
Proof.
  unfold non_skipped. cbn [List.filter]. unfold is_skipped at 1.
  destruct (relPath e); reflexivity.
Qed.

(** What the loop adds to the counters and to the messages. *)
Lemma for_of_results folder files c w w' t c' :
  for_of folder files c w = (w', t, Ok c') ->
  patches_applied t = non_skipped files
  /\ exists ms,
      messages c' = messages c ++ ms
      /\ Forall2 message_for ms (non_skipped files)
      /\ ok c' = ok c + count_if is_success ms
      /\ ko c' = ko c + count_if is_failure ms
      /\ count_if is_success ms + count_if is_failure ms = length ms.
Proof.
  revert c w w' t c'. induction files as [|e rest IH]; intros c w w' t c' Hrun.
  - cbn in Hrun. unfold ret in Hrun. injection Hrun as <- <- <-.
    split; [reflexivity|]. exists []. rewrite app_nil_r.
    repeat split; cbn; auto.
  - destruct (for_body_returns folder c e w) as (w1 & t1 & c1 & H1).
    rewrite (for_of_cons _ _ _ _ _ _ _ _ H1) in Hrun.
    destruct (for_of folder rest c1 w1) as [[w2 t2] r2] eqn:H2.
    cbn in Hrun. injection Hrun as -> <- ->.
    destruct (IH _ _ _ _ _ H2) as (Hp2 & ms & Hms & Hall & Hok & Hko & Hlen).
    rewrite patches_applied_app, Hp2, non_skipped_cons.
    destruct (relPath e) as [rp|] eqn:Hrp.
    + destruct (for_body_entry _ _ _ _ _ _ _ _ Hrp H1)
        as (Hp1 & m & Hm & Hfor & Hcount).
      rewrite Hp1. split; [reflexivity|].
      exists (m :: ms). rewrite Hms, Hm, <- app_assoc. cbn [app].
      split; [reflexivity|]. split; [constructor; assumption|].
      unfold count_if in *. cbn [List.filter].
      destruct Hcount as [(Hs & Ho & Hk)|(Hf & Ho & Hk)].
      * assert (is_failure m = false) as Hf
            by (unfold is_success, is_failure in *; destruct (kind m); congruence).
        rewrite Hs, Hf. cbn [length]. lia.
      * assert (is_success m = false) as Hs
            by (unfold is_success, is_failure in *; destruct (kind m); congruence).
        rewrite Hs, Hf. cbn [length]. lia.
    + rewrite (for_body_skip _ _ _ _ Hrp) in H1. injection H1 as <- <- <-.
      split; [reflexivity|]. exists ms. auto.
Qed.

Lemma non_skipped_length (files : list P) :
  length (non_skipped files) <= length files.
Proof. apply List.filter_length_le. Qed.

(** Past the guards, [applyPatch] is the parse, the loop and the
    epilogue. *)
Lemma applyPatch_loop this patchContent w folder files :
  reaches_loop patchContent w folder files ->
  exists w1 t c,
    for_of folder files no_results w = (w1, t, Ok c)
    /\ applyPatch this patchContent w
       = (after_loop this c w1,
          EvParsePatch patchContent :: t ++ epilogue this c,
          Ok tt).
Proof.
  intros (Htrim & Hfolder & Hparse & Hne).
  destruct (for_of_returns folder files no_results w) as (w1 & t & c & Hrun).
  exists w1, t, c. split; [assumption|].
  unfold applyPatch. rewrite Htrim. cbn [negb].
  unfold bind at 1. unfold read at 1. rewrite Hfolder.
  unfold bind at 1. unfold parse_or_report, try_catch, bind, Diff_parsePatch, pure_call.
  rewrite Hparse. unfold ret at 1. cbn beta iota zeta.
  destruct files as [|e rest]; [congruence|].
  fold no_results. rewrite Hrun.
  unfold after_loop, epilogue, showResultPanel, fire, ret.
  destruct (view this); cbn; rewrite ?app_nil_r; reflexivity.
Qed.
End LoopFacts.

(** ** Files the extension does not touch *)

Section FrameFacts.
Context {P W : Type} {lib : Diff.Lib P} {host : vscode.Host W}.
Context (content : W -> Uri -> option string) (HC : HostContract content).
Import JsString.

Implicit Types (folder : WorkspaceFolder) (c : Counters) (e : P) (w : W).

(** Turn each recorded answer of the host into what it says about the file
    at [v]. *)
Ltac host_frames v :=
  repeat match goal with
    | H : vscode.openTextDocument ?u ?w = (_, Ok _) |- _ =>
        let F := fresh "F" in
        let U := fresh "U" in
        pose proof (open_returns_asked _ HC _ _ _ _ H) as U;
        pose proof (open_frame _ HC u w v) as F;
        rewrite H in F; cbn [fst] in F; clear H
    | H : vscode.openTextDocument ?u ?w = (_, Throw _) |- _ =>
        let F := fresh "F" in
        pose proof (open_frame _ HC u w v) as F;
        rewrite H in F; cbn [fst] in F; clear H
    | H : vscode.applyEdit ?ed ?w = _ |- _ =>
        let F := fresh "F" in
        pose proof (edit_frame _ HC ed w v) as F;
        rewrite H in F; cbn [fst] in F; clear H
    | H : vscode.save ?d ?w = _ |- _ =>
        let F := fresh "F" in
        pose proof (save_frame _ HC d w v) as F;
        rewrite H in F; cbn [fst] in F; clear H
    end.

Lemma build_edit_uri u doc orig patched op :
  (forall d, doc = Some d -> doc_uri d = u) ->
  In op (build_edit u doc orig patched) -> edit_uri op = u.
Proof.
  intros Hd. unfold build_edit. destruct doc as [d|]; cbn.
  - intros [<-|[]]. cbn. auto.
  - intros [<-|[<-|[]]]; reflexivity.
Qed.

Lemma for_body_frame folder c e w rp v :
  relPath e = Some rp ->
  v <> target folder rp ->
  content (world_of (for_body folder c e w)) v = content w v.
Proof.
  intros Hrp Hv. unfold for_body. rewrite Hrp.
  fold (target folder rp). set (u := target folder rp) in *.
  unfold world_of. unfold_ext. answers; cbn [fst snd];
    rewrite ?(show_frame _ HC); host_frames v;
    repeat match goal with
      | F : (forall op, In op (build_edit ?u ?doc ?o ?p) -> _) -> _ |- _ =>
          let X := fresh "X" in
          assert (forall op, In op (build_edit u doc o p) -> edit_uri op <> v) as X
            by (intros op Hop;
                rewrite (build_edit_uri u doc o p op); [congruence| |exact Hop];
                intros ? ?; simplify_eq; congruence);
          specialize (F X); clear X
      | F : doc_uri ?d <> v -> _ |- _ =>
          let X := fresh "X" in
          assert (doc_uri d <> v) as X by congruence;
          specialize (F X); clear X
      end;
    congruence.
Qed.

Lemma for_of_frame folder files c w v :
  (forall e rp, In e files -> relPath e = Some rp -> v <> target folder rp) ->
  content (world_of (for_of folder files c w)) v = content w v.
Proof.
  revert c w. induction files as [|e rest IH]; intros c w Hv; [reflexivity|].
  destruct (for_body_returns folder c e w) as (w1 & t1 & c1 & H1).
  rewrite (for_of_cons _ _ _ _ _ _ _ _ H1). cbn [world_of fst].
  change (content (world_of (for_of folder rest c1 w1)) v = content w v).
  rewrite IH by (intros; eapply Hv; [right|]; eassumption).
  destruct (relPath e) as [rp|] eqn:Hrp.
  - pose proof (for_body_frame folder c e w rp v Hrp) as F.
    rewrite H1 in F. apply F. eapply Hv; [left; reflexivity|exact Hrp].
  - rewrite (for_body_skip _ _ _ _ Hrp) in H1. congruence.
Qed.

(** The edit of an iteration addresses the target of its entry. *)
Lemma for_body_edits folder c e w rp edit op :
  relPath e = Some rp ->
  In edit (edits_of (trace_of (for_body folder c e w))) ->
  In op edit ->
  edit_uri op = target folder rp.
Proof.
  intros Hrp Hedit Hop.
  destruct (for_body_run folder c e w rp Hrp) as (w2 & t2 & c2 & Heq & _ & Hcase).
  rewrite Heq in Hedit. cbn [trace_of fst snd] in Hedit.
  change (In edit (edits_of t2)) in Hedit.
  destruct (Diff.applyPatch _ e) as [[patched|]|err].
  - destruct Hcase as (t3 & -> & Ht3 & _).
    change (In edit (build_edit (target folder rp)
              (document_of (vscode.openTextDocument (target folder rp) w))
              (original_of (vscode.openTextDocument (target folder rp) w))
              patched :: edits_of t3)) in Hedit.
    rewrite Ht3 in Hedit. destruct Hedit as [<-|[]].
    eapply build_edit_uri; [|exact Hop].
    unfold document_of. intros d Hd.
    destruct (vscode.openTextDocument (target folder rp) w) as [w1 [d'|err]] eqn:Ho;
      cbn in Hd; [|discriminate].
    injection Hd as ->. eapply open_returns_asked; eassumption.
  - destruct Hcase as (-> & _). destruct Hedit.
  - destruct Hcase as (-> & _). destruct Hedit.
Qed.

Lemma for_of_edits folder files c w edit op :
  In edit (edits_of (trace_of (for_of folder files c w))) ->
  In op edit ->
  exists e rp, In e files /\ relPath e = Some rp /\ edit_uri op = target folder rp.
Proof.
  revert c w. induction files as [|e rest IH]; intros c w Hedit Hop.
  - destruct Hedit.
  - destruct (for_body_returns folder c e w) as (w1 & t1 & c1 & H1).
    rewrite (for_of_cons _ _ _ _ _ _ _ _ H1) in Hedit.
    cbn [trace_of fst snd] in Hedit.
    rewrite edits_of_app in Hedit. apply in_app_or in Hedit as [Hedit|Hedit].
    + destruct (relPath e) as [rp|] eqn:Hrp.
      * exists e, rp. split; [left; reflexivity|]. split; [assumption|].
        eapply for_body_edits; [exact Hrp| |exact Hop].
        rewrite H1. exact Hedit.
      * rewrite (for_body_skip _ _ _ _ Hrp) in H1. injection H1 as <- <- <-.
        destruct Hedit.
    + destruct (IH c1 w1 Hedit Hop) as (e' & rp & Hin & Hrp & Hu).
      exists e', rp. split; [right; assumption|]. auto.
Qed.
End FrameFacts.

(** ** The guards and the relative path *)

Section GuardFacts.
Context {P W : Type} {lib : Diff.Lib P} {host : vscode.Host W}.
Import JsString.

Implicit Types (this : PatchViewProvider) (e : P) (w : W).

Lemma guard_blank this patchContent w :
  truthy (trim patchContent) = false ->
  applyPatch this patchContent w
  = (vscode.showWarningMessage "No patch detected." w,
     [EvShowWarningMessage "No patch detected."], Ok tt).
Proof. intros H. unfold applyPatch. rewrite H. reflexivity. Qed.

Lemma guard_no_folder this patchContent w :
  truthy (trim patchContent) = true ->
  first_folder (vscode.workspaceFolders w) = None ->
  applyPatch this patchContent w
  = (vscode.showErrorMessage "Open a workspace folder first." w,
     [EvShowErrorMessage "Open a workspace folder first."], Ok tt).
Proof.
  intros H1 H2. unfold applyPatch. rewrite H1. cbn [negb].
  unfold bind, read. rewrite H2. reflexivity.
Qed.

Lemma guard_parse_throws this patchContent w folder err :
  truthy (trim patchContent) = true ->
  first_folder (vscode.workspaceFolders w) = Some folder ->
  Diff.parsePatch patchContent = Throw err ->
  applyPatch this patchContent w
  = (vscode.showErrorMessage ("Cannot read patch: " ++ exn_message err) w,
     [EvParsePatch patchContent;
      EvShowErrorMessage ("Cannot read patch: " ++ exn_message err)],
     Ok tt).
Proof.
  intros H1 H2 H3. unfold applyPatch. rewrite H1. cbn [negb].
  unfold bind at 1. unfold read. rewrite H2.
  unfold_ext. rewrite H3. reflexivity.
Qed.

Lemma guard_no_files this patchContent w folder :
  truthy (trim patchContent) = true ->
  first_folder (vscode.workspaceFolders w) = Some folder ->
  Diff.parsePatch patchContent = Ok [] ->
  applyPatch this patchContent w
  = (vscode.showWarningMessage "No files found in the patch." w,
     [EvParsePatch patchContent;
      EvShowWarningMessage "No files found in the patch."],
     Ok tt).
Proof.
  intros H1 H2 H3. unfold applyPatch. rewrite H1. cbn [negb].
  unfold bind at 1. unfold read. rewrite H2.
  unfold_ext. rewrite H3. reflexivity.
Qed.

Lemma truthy_false s : truthy s = false <-> s = "".
Proof. destruct s; cbn; split; congruence. Qed.

Lemma or_else_picks e n :
  or_else (Diff.newFileName e) (Diff.oldFileName e) = Some n <-> picks e n.
Proof.
  unfold or_else, picks.
  destruct (Diff.newFileName e) as [[|a s]|]; cbn; split; intros H.
  - right. split; [right; reflexivity | assumption].
  - destruct H as [[H1 H2]|[_ H]]; [congruence | assumption].
  - left. split; [assumption | congruence].
  - destruct H as [[H _]|[[H|H] _]]; congruence.
  - right. split; [left; reflexivity | assumption].
  - destruct H as [[H _]|[_ H]]; [congruence | assumption].
Qed.

(** The path of an entry whose picked name is neither empty nor
    [/dev/null]. *)
Lemma relPath_picked e n :
  picks e n -> n <> "" -> n <> "/dev/null" ->
  relPath e =
  Some (replaceAll
          (let s1 := if startsWith n "a/" then substring n 2 else n in
           if startsWith s1 "b/" then substring s1 2 else s1)
          "\" "/").
Proof.
  intros Hp He Hd. apply or_else_picks in Hp. unfold relPath. rewrite Hp.
  destruct (truthy n) eqn:Ht; [|apply truthy_false in Ht; congruence].
  destruct (String.eqb n "/dev/null") eqn:Hn;
    [apply String.eqb_eq in Hn; congruence|].
  reflexivity.
Qed.

(** An entry is skipped when no name is picked, or the picked name is
    empty or [/dev/null]. *)
Lemma relPath_skipped e :
  (forall n, picks e n -> n = "" \/ n = "/dev/null") -> relPath e = None.
Proof.
  intros H. unfold relPath.
  destruct (or_else (Diff.newFileName e) (Diff.oldFileName e)) as [n|] eqn:Ho;
    [|reflexivity].
  apply or_else_picks in Ho. destruct (H n Ho) as [->| ->]; reflexivity.
Qed.
End GuardFacts.

(** ** The claims about one entry *)

Section EntryClaims.
Context {P W : Type} {lib : Diff.Lib P} {host : vscode.Host W}.
Import JsString.

Implicit Types (folder : WorkspaceFolder) (c : Counters) (e : P) (w : W).

(** C1.  For an entry that the loop counts as applied ([ok] goes up by
    one), the library's [applyPatch], given the CRLF-normalized text of the
    opened document (the empty string when opening failed), returned a
    string [patched], and the one edit submitted to the host is built from
    [patched] as it is: a replacement of the whole document by [patched],
    or the creation of the file followed by the insertion of [patched] at
    its start.  The only text the edit writes is [patched]. *)
Theorem applied_entry_writes_library_output folder c e w w' t c' :
  for_body folder c e w = (w', t, Ok c') ->
  ok c' = S (ok c) ->
  exists rp patched,
    relPath e = Some rp
    /\ let o := vscode.openTextDocument (target folder rp) w in
       Diff.applyPatch (Spec.crlf_to_lf (original_of o)) e = Ok (Some patched)
       /\ (document_of o = None -> original_of o = "")
       /\ edits_of t
          = [build_edit (target folder rp) (document_of o) (original_of o) patched]
       /\ edit_texts
            (build_edit (target folder rp) (document_of o) (original_of o) patched)
          = [patched].
Proof.
  intros Hrun Hok.
  destruct (relPath e) as [rp|] eqn:Hrp.
  2:{ rewrite (for_body_skip _ _ _ _ Hrp) in Hrun. injection Hrun as <- <- <-. lia. }
  exists rp.
  destruct (for_body_run folder c e w rp Hrp) as (w2 & t2 & c2 & Heq & Hp & Hcase).
  rewrite Hrun in Heq. injection Heq as -> -> ->.
  rewrite replaceAll_crlf in Hcase.
  destruct (Diff.applyPatch _ e) as [[patched|]|err] eqn:Hlib.
  - exists patched. split; [reflexivity|]. cbn zeta.
    destruct Hcase as (t3 & -> & Ht3 & _).
    split; [exact Hlib|]. split.
    + unfold document_of, original_of.
      destruct (snd (vscode.openTextDocument (target folder rp) w)); [discriminate|reflexivity].
    + split.
      * change (build_edit (target folder rp)
                  (document_of (vscode.openTextDocument (target folder rp) w))
                  (original_of (vscode.openTextDocument (target folder rp) w))
                  patched :: edits_of t3 = [build_edit (target folder rp)
                  (document_of (vscode.openTextDocument (target folder rp) w))
                  (original_of (vscode.openTextDocument (target folder rp) w))
                  patched]).
        rewrite Ht3. reflexivity.
      * unfold build_edit.
        destruct (document_of (vscode.openTextDocument (target folder rp) w));
          reflexivity.
  - destruct Hcase as (_ & _ & ->). cbn in Hok. lia.
  - destruct Hcase as (_ & _ & ->). cbn in Hok. lia.
Qed.

(** C2.  For an entry that is not skipped, the iteration opens the target
    and then calls the library's [applyPatch] on the original text with
    every CR LF replaced by LF, together with the parsed entry as the parser
    gave it; this is the only call to the library in the iteration, it comes
    before any edit, and every text an edit of the iteration writes is the
    library's answer to that call, unchanged. *)
Theorem original_text_is_normalized folder c e w rp :
  relPath e = Some rp ->
  let o := vscode.openTextDocument (target folder rp) w in
  exists t',
    trace_of (for_body folder c e w)
    = EvOpenTextDocument (target folder rp)
        :: EvDiffApplyPatch (Spec.crlf_to_lf (original_of o)) e :: t'
    /\ patches_applied t' = []
    /\ forall edit txt,
        In edit (edits_of t') -> In txt (edit_texts edit) ->
        Diff.applyPatch (Spec.crlf_to_lf (original_of o)) e = Ok (Some txt).
Proof.
  intros Hrp o.
  destruct (for_body_run folder c e w rp Hrp) as (w2 & t2 & c2 & Heq & Hp & Hcase).
  rewrite replaceAll_crlf in Heq, Hcase. fold o in Heq, Hcase.
  exists t2. rewrite Heq. split; [reflexivity|]. split; [exact Hp|].
  intros edit txt Hedit Htxt.
  destruct (Diff.applyPatch _ e) as [[patched|]|err] eqn:Hlib.
  - destruct Hcase as (t3 & -> & Ht3 & _).
    change (In edit (build_edit (target folder rp) (document_of o) (original_of o)
                       patched :: edits_of t3)) in Hedit.
    rewrite Ht3 in Hedit. destruct Hedit as [<-|[]].
    unfold build_edit in Htxt.
    destruct (document_of o); cbn in Htxt; destruct Htxt as [<-|[]]; reflexivity.
  - destruct Hcase as (-> & _). destruct Hedit.
  - destruct Hcase as (-> & _). destruct Hedit.
Qed.

(** C3 (amended).  For an entry that is not skipped, the iteration opens
    the target and calls the library's [applyPatch] exactly once, whether or
    not the opening threw; the iteration itself never throws, and the loop
    goes on with the remaining entries from the counters the iteration
    leaves.  If the library returns [false] or throws, the failure counter
    goes up by one, one message of kind "fail" for the file is appended, the
    success counter is unchanged and no edit is submitted.  If an exception
    reaches the entry's handler, the failure is counted and reported in the
    same way; when the library had returned a text, the edit built from it
    had been submitted before. *)
Theorem failed_entry_is_counted_once folder c e rest w rp :
  relPath e = Some rp ->
  let o := vscode.openTextDocument (target folder rp) w in
  let answer := Diff.applyPatch (Spec.crlf_to_lf (original_of o)) e in
  exists w' t' c',
    let t := EvOpenTextDocument (target folder rp)
               :: EvDiffApplyPatch (Spec.crlf_to_lf (original_of o)) e :: t' in
    for_body folder c e w = (w', t, Ok c')
    /\ patches_applied t = [e]
    /\ for_of folder (e :: rest) c w
       = (world_of (for_of folder rest c' w'),
          t ++ trace_of (for_of folder rest c' w'),
          result_of (for_of folder rest c' w'))
    /\ ((answer = Ok None \/ exists err, answer = Throw err) ->
        edits_of t = []
        /\ ok c' = ok c /\ ko c' = S (ko c)
        /\ exists m, messages c' = messages c ++ [m]
                     /\ kind m = kind_fail /\ message_for m e)
    /\ (forall err,
           result_of (try_file c e rp (target folder rp) w) = Throw err ->
           c' = count_ko c (rp ++ ": " ++ exn_toString err)
           /\ forall patched,
               answer = Ok (Some patched) ->
               edits_of t
               = [build_edit (target folder rp) (document_of o) (original_of o)
                    patched]).
Proof.
  intros Hrp o answer.
  destruct (for_body_run folder c e w rp Hrp) as (w2 & t2 & c2 & Heq & Hp & Hcase).
  rewrite replaceAll_crlf in Heq, Hcase. fold o in Heq, Hcase. fold answer in Hcase.
  exists w2, t2, c2. cbn zeta. split; [exact Heq|].
  split; [change (e :: patches_applied t2 = [e]); rewrite Hp; reflexivity|].
  split; [apply for_of_cons, Heq|].
  split.
  - intros Hans.
    assert (t2 = [] /\ exists tail, c2 = count_ko c (rp ++ ": " ++ tail)) as [-> [tail ->]].
    { destruct Hans as [Hans|[err Hans]]; rewrite Hans in Hcase;
        destruct Hcase as (-> & _ & ->); eauto. }
    split; [reflexivity|]. cbn. repeat split.
    eexists. split; [reflexivity|]. split; [reflexivity|].
    exists rp, tail. auto.
  - intros err Hthrow.
    assert (for_body folder c e w
            = (world_of (try_file c e rp (target folder rp) w),
               trace_of (try_file c e rp (target folder rp) w),
               Ok (count_ko c (rp ++ ": " ++ exn_toString err)))) as Hcatch.
    { unfold for_body. rewrite Hrp. fold (target folder rp).
      unfold try_catch at 1.
      destruct (try_file c e rp (target folder rp) w) as [[w3 t3] r3].
      cbn in Hthrow. subst r3. unfold ret. cbn. rewrite app_nil_r. reflexivity. }
    rewrite Heq in Hcatch. injection Hcatch as _ _ ->.
    split; [reflexivity|].
    intros patched Hans. rewrite Hans in Hcase.
    destruct Hcase as (t3 & -> & Ht3 & _).
    change (build_edit (target folder rp) (document_of o) (original_of o) patched
              :: edits_of t3 = [build_edit (target folder rp) (document_of o)
                                  (original_of o) patched]).
    rewrite Ht3. reflexivity.
Qed.
End EntryClaims.

(** ** The claims about a whole run *)

Section RunClaims.
Context {P W : Type} {lib : Diff.Lib P} {host : vscode.Host W}.
Import JsString.

Implicit Types (this : PatchViewProvider) (folder : WorkspaceFolder)
         (c : Counters) (e : P) (w : W).

Lemma epilogue_no_library_call this c :
  patches_applied (epilogue (P := P) this c) = []
  /\ edits_of (epilogue (P := P) this c) = [].
Proof. unfold epilogue. destruct (view this); split; reflexivity. Qed.

(** The path of an entry comes from one of its two names. *)
Lemma relPath_derived e rp :
  relPath e = Some rp ->
  exists n s1 s2,
    (Diff.newFileName e = Some n \/ Diff.oldFileName e = Some n)
    /\ Spec.stripped "a/" n s1 /\ Spec.stripped "b/" s1 s2
    /\ rp = Spec.backslash_to_slash s2.
Proof.
  unfold relPath.
  destruct (or_else (Diff.newFileName e) (Diff.oldFileName e)) as [n|] eqn:Ho;
    [|discriminate].
  destruct (negb (truthy n) || String.eqb n "/dev/null"); [discriminate|].
  intros H. injection H as <-.
  exists n. do 2 eexists. split.
  - apply or_else_picks in Ho. destruct Ho as [[H _]|[_ H]]; auto.
  - split; [apply (strip_stripped "a/" n)|].
    split; [apply (strip_stripped "b/")|].
    apply replaceAll_backslash.
Qed.

Lemma append_empty s : (s ++ "")%string = s.
Proof.
  induction s as [|c s IH]; [reflexivity|].
  change (String c (s ++ "") = String c s). rewrite IH. reflexivity.
Qed.

Lemma append_assoc (s1 s2 s3 : string) :
  (s1 ++ (s2 ++ s3))%string = ((s1 ++ s2) ++ s3)%string.
Proof.
  induction s1 as [|c s1 IH]; [reflexivity|].
  change (String c (s1 ++ (s2 ++ s3)) = String c ((s1 ++ s2) ++ s3)).
  rewrite IH. reflexivity.
Qed.

(** The item the page makes of a message is the item to be shown. *)
Lemma li_as_shown m : Html.li m = Shown.item m.
Proof. destruct m as [[| |] t]; reflexivity. Qed.

Lemma lines_as_shown ms : Html.lines ms = Shown.items ms.
Proof.
  unfold Html.lines. induction ms as [|m ms IH]; [reflexivity|].
  cbn [List.map String.concat Shown.items]. rewrite <- IH, li_as_shown.
  destruct ms as [|m' ms]; [apply eq_sym, append_empty|reflexivity].
Qed.

Lemma body_as_shown ms : Html.body ms = Shown.body ms.
Proof.
  destruct ms as [|m ms]; [reflexivity|].
  unfold Html.body, Shown.body. rewrite lines_as_shown. reflexivity.
Qed.

(** Every message has its item in the list. *)
Lemma items_show_each ms m :
  In m ms ->
  exists a b, Shown.items ms = (a ++ Shown.item m ++ b)%string.
Proof.
  induction ms as [|m0 ms IH]; [intros []|].
  intros [->|Hin].
  - exists "", (Shown.items ms). reflexivity.
  - destruct (IH Hin) as (a & b & Hab).
    exists (Shown.item m0 ++ a)%string, b.
    cbn [Shown.items]. rewrite Hab, append_assoc. reflexivity.
Qed.

(** C4.  When the loop is reached, the entries are handled one after the
    other in the order the parser returned them, each iteration starting in
    the host state and with the counters the one before it left; the
    library's [applyPatch] is called on the entries that are not skipped, in
    that order; and the messages handed to the results panel are, in that
    same order, one message per entry that is not skipped, each beginning
    with the relative path of its entry.  The page of the panel shows them:
    its body is a list with one item per message, in the order of the
    messages, each item holding the icon of the message's kind and the
    message's text (or the paragraph "No details available." when every
    entry was skipped). *)
Theorem entries_processed_in_parser_order this patchContent w folder files :
  reaches_loop patchContent w folder files ->
  exists c,
    result_of (for_of folder files no_results w) = Ok c
    /\ trace_of (applyPatch this patchContent w)
       = EvParsePatch patchContent
           :: flat_map (iteration_trace folder)
                (iterations folder files no_results w)
           ++ epilogue this c
    /\ List.map (fun it => fst (fst it)) (iterations folder files no_results w)
       = files
    /\ patches_applied (trace_of (applyPatch this patchContent w))
       = non_skipped files
    /\ Forall2 message_for (messages c) (non_skipped files)
    /\ (messages c <> [] ->
        page_body (Html.resultsHtml (ok c) (ko c) (messages c))
        = ("<ul>" ++ String.concat "" (List.map Html.li (messages c)) ++ "</ul>")%string)
    /\ page_body (Html.resultsHtml (ok c) (ko c) (messages c))
       = Shown.body (messages c)
    /\ (forall m, In m (messages c) ->
        exists shown_before shown_after,
          page_body (Html.resultsHtml (ok c) (ko c) (messages c))
          = (shown_before ++ Shown.before_text (kind m) ++ text m
             ++ Shown.after_text ++ shown_after)%string).
Proof.
  intros Hloop.
  destruct (applyPatch_loop this _ _ _ _ Hloop) as (w1 & t & c & Hfor & Hrun).
  destruct (for_of_iterations folder files no_results w) as [Htrace Hfiles].
  destruct (for_of_results _ _ _ _ _ _ _ Hfor) as (Hp & ms & Hms & Hall & _).
  rewrite Hfor in Htrace. cbn [trace_of fst snd] in Htrace.
  exists c. rewrite Hfor, Hrun. cbn [result_of trace_of fst snd].
  split; [reflexivity|]. split; [rewrite Htrace; reflexivity|].
  split; [exact Hfiles|]. split.
  - change (patches_applied (t ++ epilogue this c) = non_skipped files).
    rewrite patches_applied_app, (proj1 (epilogue_no_library_call this c)), app_nil_r.
    exact Hp.
  - cbn in Hms. rewrite Hms. split; [exact Hall|].
    split; [destruct ms; [congruence|reflexivity]|].
    unfold Html.resultsHtml. cbn [page_body].
    split; [apply body_as_shown|].
    intros m Hm. rewrite body_as_shown.
    destruct (items_show_each ms m Hm) as (a & b & Hab).
    destruct ms as [|m0 ms']; [destruct Hm|].
    exists ("<ul>" ++ a)%string, (b ++ "</ul>")%string.
    unfold Shown.body. rewrite Hab. unfold Shown.item.
    rewrite <- !append_assoc. reflexivity.
Qed.

(** C5.  When the loop is reached, the results panel is opened once, after
    the loop, with counters [ok] and [ko] and a list of messages such that
    [ok] is the number of messages of kind "ok" or "new", [ko] the number of
    messages of kind "fail", [ok + ko] the number of messages, and [ok + ko]
    at most the number of entries the parser returned. *)
Theorem panel_counters_match_messages this patchContent w folder files :
  reaches_loop patchContent w folder files ->
  exists t c,
    trace_of (applyPatch this patchContent w)
    = EvParsePatch patchContent :: t ++ epilogue this c
    /\ Forall (fun ev => loop_event ev = true) t
    /\ ok c = count_if is_success (messages c)
    /\ ko c = count_if is_failure (messages c)
    /\ ok c + ko c = length (messages c)
    /\ ok c + ko c <= length files.
Proof.
  intros Hloop.
  destruct (applyPatch_loop this _ _ _ _ Hloop) as (w1 & t & c & Hfor & Hrun).
  destruct (for_of_results _ _ _ _ _ _ _ Hfor)
    as (_ & ms & Hms & Hall & Hok & Hko & Hlen).
  exists t, c. rewrite Hrun. split; [reflexivity|].
  split.
  { pose proof (for_of_events folder files no_results w) as Hev.
    rewrite Hfor in Hev. exact Hev. }
  cbn in Hms, Hok, Hko. rewrite Hms, Hok, Hko.
  pose proof (Forall2_length _ _ _ Hall) as Hl.
  pose proof (non_skipped_length files).
  repeat split; lia.
Qed.

(** C6.  Under the host's contract on files, every operation of every edit
    that [applyPatch] submits addresses the URI obtained by joining the
    first workspace folder with the relative path of some parsed entry, a
    path derived from the entry's new or old file name; and the content of
    every file whose URI is not obtained in this way from a parsed entry is
    the same after [applyPatch] as before. *)
Theorem edits_stay_within_patch (content : W -> Uri -> option string)
        this patchContent w :
  HostContract content ->
  (forall edit op,
      In edit (edits_of (trace_of (applyPatch this patchContent w))) ->
      In op edit ->
      exists folder files e rp n s1 s2,
        first_folder (vscode.workspaceFolders w) = Some folder
        /\ Diff.parsePatch patchContent = Ok files
        /\ In e files
        /\ (Diff.newFileName e = Some n \/ Diff.oldFileName e = Some n)
        /\ Spec.stripped "a/" n s1 /\ Spec.stripped "b/" s1 s2
        /\ rp = Spec.backslash_to_slash s2
        /\ relPath e = Some rp
        /\ edit_uri op = vscode.joinPath (folder_uri folder) rp)
  /\ (forall v,
         (forall folder files e rp,
             first_folder (vscode.workspaceFolders w) = Some folder ->
             Diff.parsePatch patchContent = Ok files ->
             In e files -> relPath e = Some rp ->
             v <> vscode.joinPath (folder_uri folder) rp) ->
         content (world_of (applyPatch this patchContent w)) v = content w v).
Proof.
  intros HC.
  destruct (truthy (trim patchContent)) eqn:Htrim.
  2:{ rewrite (guard_blank _ _ _ Htrim). cbn [trace_of world_of fst snd].
      split; [intros ? ? []|]. intros v _. apply (warning_frame _ HC). }
  destruct (first_folder (vscode.workspaceFolders w)) as [folder|] eqn:Hfolder.
  2:{ rewrite (guard_no_folder _ _ _ Htrim Hfolder). cbn [trace_of world_of fst snd].
      split; [intros ? ? []|]. intros v _. apply (error_frame _ HC). }
  destruct (Diff.parsePatch patchContent) as [files|err] eqn:Hparse.
  2:{ rewrite (guard_parse_throws _ _ _ _ _ Htrim Hfolder Hparse).
      cbn [trace_of world_of fst snd].
      split; [intros ? ? []|]. intros v _. apply (error_frame _ HC). }
  destruct files as [|e0 rest].
  { rewrite (guard_no_files _ _ _ _ Htrim Hfolder Hparse).
    cbn [trace_of world_of fst snd].
    split; [intros ? ? []|]. intros v _. apply (warning_frame _ HC). }
  assert (reaches_loop patchContent w folder (e0 :: rest)) as Hloop
      by (repeat split; auto; discriminate).
  destruct (applyPatch_loop this _ _ _ _ Hloop) as (w1 & t & c & Hfor & Hrun).
  rewrite Hrun. cbn [trace_of world_of fst snd]. split.
  - intros edit op Hedit Hop.
    change (In edit (edits_of (t ++ epilogue this c))) in Hedit.
    rewrite edits_of_app, (proj2 (epilogue_no_library_call this c)), app_nil_r in Hedit.
    assert (In edit (edits_of (trace_of (for_of folder (e0 :: rest) no_results w))))
      as Hedit' by (rewrite Hfor; exact Hedit).
    destruct (for_of_edits content HC _ _ _ _ _ _ Hedit' Hop)
      as (e & rp & Hin & Hrp & Hu).
    destruct (relPath_derived e rp Hrp) as (n & s1 & s2 & Hn & H1 & H2 & Heq).
    exists folder, (e0 :: rest), e, rp, n, s1, s2. repeat split; auto.
  - intros v Hv. unfold after_loop.
    assert (content w1 v = content w v) as <-.
    { pose proof (for_of_frame content HC folder (e0 :: rest) no_results w v) as F.
      rewrite Hfor in F. apply F. intros e rp Hin Hrp.
      apply (Hv folder (e0 :: rest) e rp); auto. }
    destruct (view this);
      rewrite ?(post_frame _ HC), (clipboard_frame _ HC), (panel_frame _ HC);
      reflexivity.
Qed.


(** C8.  If the input is empty or whitespace-only, or no workspace folder
    is open, or the parser throws, or the parser returns no entry, then
    [applyPatch] returns normally having made exactly one call to the host,
    which shows a warning or an error message: no edit, no results panel, no
    write to the clipboard and no message to the view. *)
Theorem guards_show_one_message this patchContent w :
  Spec.whitespace_only patchContent
  \/ first_folder (vscode.workspaceFolders w) = None
  \/ (exists err, Diff.parsePatch patchContent = Throw err)
  \/ Diff.parsePatch patchContent = Ok [] ->
  exists msg,
    result_of (applyPatch this patchContent w) = Ok tt
    /\ ((host_calls (trace_of (applyPatch this patchContent w))
         = [EvShowWarningMessage msg]
         /\ world_of (applyPatch this patchContent w)
            = vscode.showWarningMessage msg w)
        \/ (host_calls (trace_of (applyPatch this patchContent w))
            = [EvShowErrorMessage msg]
            /\ world_of (applyPatch this patchContent w)
               = vscode.showErrorMessage msg w)).
Proof.
  intros Hguard.
  destruct (truthy (trim patchContent)) eqn:Htrim.
  2:{ rewrite (guard_blank _ _ _ Htrim). eexists. split; [reflexivity|].
      left. split; reflexivity. }
  destruct (first_folder (vscode.workspaceFolders w)) as [folder|] eqn:Hfolder.
  2:{ rewrite (guard_no_folder _ _ _ Htrim Hfolder). eexists.
      split; [reflexivity|]. right. split; reflexivity. }
  destruct (Diff.parsePatch patchContent) as [files|err] eqn:Hparse.
  2:{ rewrite (guard_parse_throws _ _ _ _ _ Htrim Hfolder Hparse). eexists.
      split; [reflexivity|]. right. split; reflexivity. }
  destruct files as [|e0 rest].
  { rewrite (guard_no_files _ _ _ _ Htrim Hfolder Hparse). eexists.
    split; [reflexivity|]. left. split; reflexivity. }
  exfalso. destruct Hguard as [Hws|[Hnone|[[err Herr]|Hempty]]]; try discriminate.
  rewrite (trim_whitespace _ Hws) in Htrim. discriminate.
Qed.

(** C9 (amended).  The name of an entry is its new file name when that is
    present and not empty, its old file name otherwise.  If that name is
    neither empty nor [/dev/null], a leading [a/] is stripped from it, then
    a leading [b/] from what remains, every backslash is replaced by a
    slash, and the iteration opens the result joined to the workspace
    folder.  If there is no such name, or it is empty or [/dev/null], the
    iteration does nothing: no call, no message, counters unchanged. *)
Theorem entry_path_resolution folder c e w :
  (forall n,
      picks e n -> n <> "" -> n <> "/dev/null" ->
      exists s1 s2,
        Spec.stripped "a/" n s1 /\ Spec.stripped "b/" s1 s2
        /\ relPath e = Some (Spec.backslash_to_slash s2)
        /\ exists t,
            trace_of (for_body folder c e w)
            = EvOpenTextDocument
                (vscode.joinPath (folder_uri folder) (Spec.backslash_to_slash s2))
                :: t)
  /\ ((forall n, picks e n -> n = "" \/ n = "/dev/null") ->
      for_body folder c e w = (w, [], Ok c)).
Proof.
  split.
  - intros n Hp He Hd.
    pose proof (relPath_picked e n Hp He Hd) as Hrp.
    rewrite replaceAll_backslash in Hrp. cbn zeta in Hrp.
    do 2 eexists. split; [apply (strip_stripped "a/" n)|].
    split; [apply (strip_stripped "b/")|].
    split; [exact Hrp|].
    destruct (for_body_run folder c e w _ Hrp) as (w2 & t2 & c2 & Heq & _).
    rewrite Heq. eexists. reflexivity.
  - intros H. apply for_body_skip, relPath_skipped, H.
Qed.

(** C10 (amended).  When the loop is reached, [applyPatch] returns
    normally, whatever the iterations did, and the calls it ends with are:
    the results panel, then the clipboard set to the empty string, then,
    when the provider holds a view, the [clear] message posted to it.  When
    the provider holds no view nothing is posted. *)
Theorem run_ends_by_clearing this patchContent w folder files :
  reaches_loop patchContent w folder files ->
  exists w1 t c,
    for_of folder files no_results w = (w1, t, Ok c)
    /\ result_of (applyPatch this patchContent w) = Ok tt
    /\ world_of (applyPatch this patchContent w) = after_loop this c w1
    /\ trace_of (applyPatch this patchContent w)
       = (EvParsePatch patchContent :: t)
           ++ [EvCreateWebviewPanel (Html.resultsHtml (ok c) (ko c) (messages c));
               EvClipboardWriteText ""]
           ++ match view this with
              | Some _ => [EvPostMessage msg_clear]
              | None => []
              end
    /\ Forall (fun ev => loop_event ev = true) t.
Proof.
  intros Hloop.
  destruct (applyPatch_loop this _ _ _ _ Hloop) as (w1 & t & c & Hfor & Hrun).
  exists w1, t, c. rewrite Hrun. repeat split; try assumption.
  pose proof (for_of_events folder files no_results w) as Hev.
  rewrite Hfor in Hev. exact Hev.
Qed.
End RunClaims.

(** ** The small host honours the contract *)

Section SimFacts.
Lemma apply_op_other (fs : gmap string string) (op : EditOp) (v : Uri) :
  edit_uri op <> v -> Sim.apply_op fs op !! v = fs !! v.
Proof.
  intros Hv. destruct op as [u i|u p t|u s e t]; cbn in *;
    destruct (fs !! u); try reflexivity; apply lookup_insert_ne; exact Hv.
Qed.

Lemma apply_ops_other (edit : WorkspaceEdit) (fs : gmap string string) (v : Uri) :
  (forall op, In op edit -> edit_uri op <> v) ->
  fold_left Sim.apply_op edit fs !! v = fs !! v.
Proof.
  revert fs. induction edit as [|op edit IH]; intros fs Hv; [reflexivity|].
  cbn [fold_left]. rewrite IH by (intros; apply Hv; right; assumption).
  apply apply_op_other, Hv. left. reflexivity.
Qed.

Lemma sim_contract : HostContract (host := Sim.host) Sim.content.
Proof.
  constructor; cbn; unfold Sim.content.
  - intros u w w' d. unfold Sim.open. destruct (Sim.files w !! u); intros H;
      inversion H; reflexivity.
  - intros u w v. unfold Sim.open. destruct (Sim.files w !! u); reflexivity.
  - intros edit w v Hv. unfold Sim.apply_edit.
    destruct (Sim.edits_rejected w); [reflexivity|].
    cbn. apply apply_ops_other, Hv.
  - intros d w v _. unfold Sim.save_doc. destruct (Sim.save_rejects w); reflexivity.
  - reflexivity.
  - reflexivity.
  - reflexivity.
  - reflexivity.
  - reflexivity.
  - reflexivity.
Qed.
End SimFacts.

(** ** The claims on the small host *)

Section Witnesses.
Import Sim Scenario.
Local Open Scope string_scope.

(** C1 on [x.txt]: the edit replaces the ten characters of the file by the
    library's output. *)
Lemma applied_entry_writes_library_output_witness :
  edits_of (trace_of (body no_results patch_x world0))
  = [[EditReplace "file:///ws/x.txt" {| line := 0; character := 0 |}
        {| line := 0; character := 10 |} ("one" ++ lf ++ "2" ++ lf)]].
Proof.
  destruct (applied_entry_writes_library_output (lib := lib) (host := Sim.host)
              root no_results patch_x world0
              (world_of (body no_results patch_x world0))
              (trace_of (body no_results patch_x world0))
              (count_ok no_results kind_ok "x.txt: patched and saved."))
    as (rp & patched & Hrp & Hlib & _ & Hedits & _).
  - vm_compute. reflexivity.
  - vm_compute. reflexivity.
  - vm_compute in Hrp. injection Hrp as <-.
    vm_compute in Hlib. injection Hlib as <-.
    rewrite Hedits. vm_compute. reflexivity.
Defined.

(** C2 on [x.txt], whose lines end in CR LF: the library sees them end in
    LF. *)
Lemma original_text_is_normalized_witness :
  relPath (lib := lib) patch_x = Some "x.txt"
  /\ exists t',
      trace_of (body no_results patch_x world0)
      = EvOpenTextDocument "file:///ws/x.txt"
          :: EvDiffApplyPatch ("one" ++ lf ++ "two" ++ lf) patch_x :: t'.
Proof.
  split; [reflexivity|].
  destruct (original_text_is_normalized (lib := lib) (host := Sim.host)
              root no_results patch_x world0 "x.txt" eq_refl)
    as (t' & Ht & _).
  exists t'. unfold body. rewrite Ht. reflexivity.
Defined.

(** C3 (amended) on a patch that does not apply to [y.txt]. *)
Lemma failed_entry_is_counted_once_witness :
  relPath (lib := lib) patch_stale = Some "y.txt"
  /\ apply_patch "keep" patch_stale = Ok None
  /\ exists c',
      result_of (body no_results patch_stale world0) = Ok c'
      /\ edits_of (trace_of (body no_results patch_stale world0)) = []
      /\ ok c' = 0 /\ ko c' = 1.
Proof.
  split; [reflexivity|]. split; [reflexivity|].
  destruct (failed_entry_is_counted_once (lib := lib) (host := Sim.host)
              root no_results patch_stale [] world0 "y.txt" eq_refl)
    as (w' & t' & c' & Hbody & _ & _ & Hfail & _).
  destruct (Hfail (or_introl eq_refl)) as (Hedits & Hok & Hko & _).
  exists c'. unfold body. rewrite Hbody. cbn [result_of trace_of fst snd].
  repeat split; assumption.
Defined.

Lemma patch_1_reaches_loop :
  reaches_loop (lib := lib) (host := Sim.host) "patch-1" world0 root
    [patch_x; patch_del; patch_new; patch_stale].
Proof. repeat split. discriminate. Qed.

(** C4 on a patch of four entries, the second of which is skipped. *)
Lemma entries_processed_in_parser_order_witness :
  reaches_loop (lib := lib) (host := Sim.host) "patch-1" world0 root
    [patch_x; patch_del; patch_new; patch_stale]
  /\ patches_applied (trace_of (run provider1 "patch-1" world0))
     = [patch_x; patch_new; patch_stale].
Proof.
  split; [exact patch_1_reaches_loop|].
  destruct (entries_processed_in_parser_order (lib := lib) (host := Sim.host)
              provider1 "patch-1" world0 root _ patch_1_reaches_loop)
    as (c & _ & _ & _ & Hp & _).
  unfold run. rewrite Hp. reflexivity.
Defined.

(** C5 on the same patch. *)
Lemma panel_counters_match_messages_witness :
  reaches_loop (lib := lib) (host := Sim.host) "patch-1" world0 root
    [patch_x; patch_del; patch_new; patch_stale]
  /\ exists t c,
      trace_of (run provider1 "patch-1" world0)
      = EvParsePatch "patch-1" :: t ++ epilogue provider1 c
      /\ ok c + ko c = length (messages c)
      /\ ok c + ko c <= 4.
Proof.
  split; [exact patch_1_reaches_loop|].
  destruct (panel_counters_match_messages (lib := lib) (host := Sim.host)
              provider1 "patch-1" world0 root _ patch_1_reaches_loop)
    as (t & c & Ht & _ & _ & _ & Hlen & Hle).
  exists t, c. repeat split; assumption.
Defined.

(** C6 on a patch of [x.txt] alone: [y.txt] keeps its content. *)
Lemma edits_stay_within_patch_witness :
  HostContract (host := Sim.host) content
  /\ content (world_of (run provider1 "patch-2" world0)) "file:///ws/y.txt"
     = Some "keep".
Proof.
  split; [exact sim_contract|].
  destruct (edits_stay_within_patch (lib := lib) (host := Sim.host)
              content provider1 "patch-2" world0 sim_contract) as [_ Hframe].
  unfold run. rewrite (Hframe "file:///ws/y.txt"); [reflexivity|].
  intros folder files e rp Hfolder Hparse Hin Hrp.
  injection Hfolder as <-. injection Hparse as <-.
  destruct Hin as [<-|[]]. injection Hrp as <-. discriminate.
Defined.

(** C8 on an input of three spaces. *)
Lemma guards_show_one_message_witness :
  Spec.whitespace_only "   "
  /\ exists msg,
      result_of (run provider1 "   " world0) = Ok tt
      /\ (host_calls (trace_of (run provider1 "   " world0))
          = [EvShowWarningMessage msg]
          \/ host_calls (trace_of (run provider1 "   " world0))
             = [EvShowErrorMessage msg]).
Proof.
  assert (Spec.whitespace_only "   ") as Hws by (repeat constructor).
  split; [exact Hws|].
  destruct (guards_show_one_message (lib := lib) (host := Sim.host)
              provider1 "   " world0 (or_introl Hws))
    as (msg & Hres & [[Hcalls _]|[Hcalls _]]);
    exists msg; (split; [exact Hres|]); [left|right]; exact Hcalls.
Defined.

Lemma patch_nested_picks :
  picks (lib := lib) patch_nested "a/b/dir\x".
Proof. left. split; [reflexivity|discriminate]. Qed.

Lemma patch_del_picks n :
  picks (lib := lib) patch_del n -> n = "" \/ n = "/dev/null".
Proof.
  intros [[H _]|[[H|H] _]]; cbn in H; [|discriminate..].
  injection H as <-. right. reflexivity.
Qed.

(** C9 (amended) on [a/b/dir\x], which resolves to [dir/x], and on a
    deletion, which is skipped. *)
Lemma entry_path_resolution_witness :
  picks (lib := lib) patch_nested "a/b/dir\x"
  /\ relPath (lib := lib) patch_nested = Some "dir/x"
  /\ body no_results patch_del world0 = (world0, [], Ok no_results).
Proof.
  split; [exact patch_nested_picks|].
  destruct (entry_path_resolution (lib := lib) (host := Sim.host)
              root no_results patch_nested world0) as [Hpath _].
  destruct (entry_path_resolution (lib := lib) (host := Sim.host)
              root no_results patch_del world0) as [_ Hskip].
  split; [|exact (Hskip patch_del_picks)].
  destruct (Hpath "a/b/dir\x" patch_nested_picks) as (s1 & s2 & H1 & H2 & Hrp & _);
    [discriminate..|].
  rewrite Hrp. f_equal.
  destruct H1 as [H1|[H1 _]]; [|exfalso; apply (H1 "b/dir\x"); reflexivity].
  cbv [String.append] in H1. injection H1 as <-.
  destruct H2 as [H2|[H2 _]]; [|exfalso; apply (H2 "dir\x"); reflexivity].
  cbv [String.append] in H2. injection H2 as <-. reflexivity.
Defined.

(** C10 (amended) with a view: the clipboard ends empty and the view has
    been sent [clear]. *)
Lemma run_ends_by_clearing_witness :
  reaches_loop (lib := lib) (host := Sim.host) "patch-1" world0 root
    [patch_x; patch_del; patch_new; patch_stale]
  /\ result_of (run provider1 "patch-1" world0) = Ok tt
  /\ clipboard (world_of (run provider1 "patch-1" world0)) = ""
  /\ posted (world_of (run provider1 "patch-1" world0)) = [msg_clear].
Proof.
  split; [exact patch_1_reaches_loop|].
  destruct (run_ends_by_clearing (lib := lib) (host := Sim.host)
              provider1 "patch-1" world0 root _ patch_1_reaches_loop)
    as (w1 & t & c & _ & Hres & _).
  split; [exact Hres|]. split; reflexivity.
Defined.

(** C3 as stated fails on a full disk: an exception is raised while
    [x.txt] is handled (by [save]) and the entry is reported as failed, yet
    the edit had been submitted and has changed the file. *)
Lemma exception_after_edit_counterexample :
  (result_of (try_file (lib := lib) (host := Sim.host) no_results patch_x
                "x.txt" "file:///ws/x.txt" world_full)
   = Throw disk_full)
  /\ result_of (body no_results patch_x world_full)
     = Ok (count_ko no_results "x.txt: Error: disk full")
  /\ edits_of (trace_of (body no_results patch_x world_full)) <> []
  /\ content (world_of (body no_results patch_x world_full)) "file:///ws/x.txt"
     = Some ("one" ++ lf ++ "2" ++ lf).
Proof.
  split; [reflexivity|]. split; [reflexivity|]. split; [|reflexivity].
  vm_compute. discriminate.
Qed.

(** C9 as stated fails on an entry whose new name is present but empty:
    the path is taken from the old name, not from the new one. *)
Lemma empty_new_name_counterexample :
  Diff.newFileName (Lib := lib) patch_unnamed = Some ""
  /\ "" <> "/dev/null"
  /\ relPath (lib := lib) patch_unnamed = Some "x.txt"
  /\ ~ (exists s1 s2,
           Spec.stripped "a/" "" s1 /\ Spec.stripped "b/" s1 s2
           /\ relPath (lib := lib) patch_unnamed
              = Some (Spec.backslash_to_slash s2)).
Proof.
  split; [reflexivity|]. split; [discriminate|]. split; [reflexivity|].
  intros (s1 & s2 & H1 & H2 & Hrp).
  destruct H1 as [H1|[_ ->]]; [discriminate|].
  destruct H2 as [H2|[_ ->]]; [discriminate|].
  vm_compute in Hrp. discriminate.
Qed.

(** C10 as stated fails when the provider holds no view (the command is
    run before the view was ever shown): the loop is reached and nothing is
    posted. *)
Lemma no_view_counterexample :
  reaches_loop (lib := lib) (host := Sim.host) "patch-2" world0 root [patch_x]
  /\ ~ In (EvPostMessage msg_clear) (trace_of (run provider0 "patch-2" world0))
  /\ posted (world_of (run provider0 "patch-2" world0)) = [].
Proof.
  split; [repeat split; discriminate|]. split; [|reflexivity].
  vm_compute. intuition discriminate.
Qed.
End Witnesses.

(** * Further properties of the code *)

(** ** Line ends and names *)

Section MoreStringFacts.
Import JsString.

Lemma rev_app_chars s1 s2 :
  list_ascii_of_string (String.rev_app s1 s2)
  = List.rev (list_ascii_of_string s1) ++ list_ascii_of_string s2.
Proof.
  revert s2. induction s1 as [|c s1 IH]; intros s2; [reflexivity|].
  cbn [String.rev_app list_ascii_of_string List.rev]. rewrite IH.
  rewrite <- app_assoc. reflexivity.
Qed.

Lemma rev_chars s :
  list_ascii_of_string (String.rev s) = List.rev (list_ascii_of_string s).
Proof. unfold String.rev. rewrite rev_app_chars. apply app_nil_r. Qed.

Lemma rev_empty s : String.rev s = "" -> s = "".
Proof.
  intros H. pose proof (rev_chars s) as Hc. rewrite H in Hc. cbn in Hc.
  destruct s as [|c s]; [reflexivity|].
  cbn in Hc. symmetry in Hc. apply app_eq_nil in Hc as [_ Hc]. discriminate.
Qed.

Lemma trimStart_empty s : trimStart s = "" -> Spec.whitespace_only s.
Proof.
  unfold Spec.whitespace_only.
  induction s as [|c s IH]; cbn; intros H; [constructor|].
  destruct (is_white_space c) eqn:Hc; [|discriminate].
  constructor; auto.
Qed.

Lemma trimStart_head s c r : trimStart s = String c r -> is_white_space c = false.
Proof.
  induction s as [|d s IH]; cbn; [discriminate|].
  destruct (is_white_space d) eqn:Hd; [exact IH|].
  intros H. injection H as <- _. exact Hd.
Qed.

(** [trim] leaves nothing exactly of the texts made of white space. *)
Lemma trim_empty_iff s : trim s = "" <-> Spec.whitespace_only s.
Proof.
  split; [|apply trim_whitespace].
  unfold trim, trimEnd. intros H.
  apply rev_empty, trimStart_empty in H.
  unfold Spec.whitespace_only in H. rewrite rev_chars in H.
  apply Forall_rev in H. rewrite rev_involutive in H.
  destruct (trimStart s) as [|c r] eqn:Hs; [apply trimStart_empty, Hs|].
  apply trimStart_head in Hs. inversion H; subst. congruence.
Qed.

Lemma prefix_lf c s :
  String.prefix (String LF "") (String c s) = Ascii.eqb c LF.
Proof. rewrite prefix_cons, prefix_nil, andb_true_r. apply Ascii.eqb_sym. Qed.

Lemma to_crlf_cons c s :
  replaceAll (String c s) (String LF "") (String CR (String LF ""))
  = if Ascii.eqb c LF
    then String CR (String LF (replaceAll s (String LF "") (String CR (String LF ""))))
    else String c (replaceAll s (String LF "") (String CR (String LF ""))).
Proof.
  unfold replaceAll. rewrite replace_from_match, prefix_lf.
  destruct (Ascii.eqb c LF); reflexivity.
Qed.

(** X4.  A text whose LF line ends were all turned into CR LF is normalized
    back to the very text it came from, whatever it contains. *)
Theorem normalization_undoes_crlf_conversion s :
  replaceAll (replaceAll s (String LF "") (String CR (String LF "")))
    (String CR (String LF "")) (String LF "")
  = s.
Proof.
  rewrite replaceAll_crlf.
  assert (Spec.crlf_to_lf
            (replaceAll s (String LF "") (String CR (String LF ""))) = s
          /\ forall r,
              replaceAll s (String LF "") (String CR (String LF ""))
              <> String LF r) as [H _]; [|exact H].
  induction s as [|c s [IH1 IH2]]; [split; [reflexivity|discriminate]|].
  rewrite to_crlf_cons. destruct (Ascii.eqb c LF) eqn:Hc.
  - apply Ascii.eqb_eq in Hc. subst c. split; [|discriminate].
    rewrite crlf_to_lf_cons. cbn [Ascii.eqb andb]. rewrite !Ascii.eqb_refl.
    cbn [andb]. rewrite IH1. reflexivity.
  - split; [|intros r H; injection H as -> _; rewrite Ascii.eqb_refl in Hc;
             discriminate].
    destruct (replaceAll s (String LF "") (String CR (String LF "")))
      as [|d r] eqn:Hs.
    + cbn in IH1. subst s. reflexivity.
    + rewrite crlf_to_lf_cons.
      replace (Ascii.eqb d LF) with false.
      * rewrite andb_false_r, IH1. reflexivity.
      * symmetry. apply Ascii.eqb_neq. intros ->. apply (IH2 r). reflexivity.
Qed.

Lemma crlf_to_lf_no_cr s :
  (forall c, In c (list_ascii_of_string s) -> c <> CR) ->
  Spec.crlf_to_lf s = s.
Proof.
  induction s as [|c s IH]; [reflexivity|]. intros H.
  assert (Spec.crlf_to_lf s = s) as IH'
      by (apply IH; intros d Hd; apply H; right; exact Hd).
  destruct s as [|d s]; [reflexivity|].
  rewrite crlf_to_lf_cons.
  replace (Ascii.eqb c CR) with false.
  - cbn [andb]. rewrite IH'. reflexivity.
  - symmetry. apply Ascii.eqb_neq. apply H. left. reflexivity.
Qed.

(** X5.  A text that contains no CR is handed to the library as it is. *)
Theorem normalization_keeps_lf_text s :
  (forall c, In c (list_ascii_of_string s) -> c <> CR) ->
  replaceAll s (String CR (String LF "")) (String LF "") = s.
Proof. intros H. rewrite replaceAll_crlf. apply crlf_to_lf_no_cr, H. Qed.

(** X6.  Normalizing two texts put end to end is normalizing each, as long
    as the second does not begin with LF (so that no CR LF straddles the
    seam). *)
Theorem normalization_of_append s1 s2 :
  (forall r, s2 <> String LF r) ->
  replaceAll (s1 ++ s2) (String CR (String LF "")) (String LF "")
  = (replaceAll s1 (String CR (String LF "")) (String LF "")
     ++ replaceAll s2 (String CR (String LF "")) (String LF ""))%string.
Proof.
  intros Hs2. rewrite !replaceAll_crlf.
  assert (Hone : forall c, Spec.crlf_to_lf (String c s2)
                           = String c (Spec.crlf_to_lf s2)).
  { intros c. destruct s2 as [|d s2]; [reflexivity|].
    rewrite crlf_to_lf_cons.
    replace (Ascii.eqb d LF) with false; [rewrite andb_false_r; reflexivity|].
    symmetry. apply Ascii.eqb_neq. intros ->. apply (Hs2 s2). reflexivity. }
  assert (H : Spec.crlf_to_lf (s1 ++ s2)
              = (Spec.crlf_to_lf s1 ++ Spec.crlf_to_lf s2)%string
              /\ forall c,
                  Spec.crlf_to_lf (String c s1 ++ s2)
                  = (Spec.crlf_to_lf (String c s1) ++ Spec.crlf_to_lf s2)%string);
    [|apply H].
  induction s1 as [|d s1 [IH1 IH2]].
  - split; [reflexivity|]. intros c. apply Hone.
  - split; [apply IH2|]. intros c.
    change (Spec.crlf_to_lf (String c (String d (s1 ++ s2)))
            = (Spec.crlf_to_lf (String c (String d s1)) ++ Spec.crlf_to_lf s2)%string).
    rewrite !crlf_to_lf_cons.
    destruct (Ascii.eqb c CR && Ascii.eqb d LF).
    + rewrite IH1. reflexivity.
    + change (String c (Spec.crlf_to_lf (String d s1 ++ s2))
              = String c (Spec.crlf_to_lf (String d s1) ++ Spec.crlf_to_lf s2)).
      rewrite IH2. reflexivity.
Qed.
End MoreStringFacts.

(** ** The relative path *)

Section MorePathFacts.
Context {P : Type} {lib : Diff.Lib P}.
Import JsString.

Lemma backslash_to_slash_clean s :
  ~ In "\"%char (list_ascii_of_string (Spec.backslash_to_slash s)).
Proof.
  induction s as [|c s IH]; [intros []|].
  cbn [Spec.backslash_to_slash list_ascii_of_string]. intros [H|H]; [|auto].
  destruct (Ascii.eqb c "\") eqn:Hc; [discriminate|].
  apply Ascii.eqb_neq in Hc. congruence.
Qed.

(** X7.  The relative path of an entry never contains a backslash. *)
Theorem relPath_has_no_backslash (e : P) rp :
  relPath e = Some rp -> ~ In "\"%char (list_ascii_of_string rp).
Proof.
  intros H. destruct (relPath_derived e rp H) as (n & s1 & s2 & _ & _ & _ & ->).
  apply backslash_to_slash_clean.
Qed.

(** X8.  An entry whose new file name is [b/] followed by a path, as
    [git diff] writes it, resolves to that path with its backslashes turned
    into slashes, whatever its old file name is. *)
Theorem git_new_name_resolves_to_path (e : P) p :
  Diff.newFileName e = Some ("b/" ++ p)%string ->
  relPath e = Some (Spec.backslash_to_slash p).
Proof.
  intros Hn.
  assert (picks e ("b/" ++ p)) as Hp by (left; split; [exact Hn|discriminate]).
  rewrite (relPath_picked e _ Hp); [|discriminate..].
  cbn zeta.
  replace (startsWith ("b/" ++ p) "a/") with false by reflexivity.
  unfold startsWith. rewrite prefix_app.
  pose proof (substring_app "b/" p) as Hsub. cbn [String.length] in Hsub.
  rewrite Hsub, replaceAll_backslash. reflexivity.
Qed.
End MorePathFacts.

(** ** The guards, once more *)

Section MoreRunFacts.
Context {P W : Type} {lib : Diff.Lib P} {host : vscode.Host W}.
Import JsString.

Implicit Types (this : PatchViewProvider) (folder : WorkspaceFolder)
         (c : Counters) (e : P) (w : W).

(** The five ways through [applyPatch]. *)
Lemma applyPatch_cases this patchContent w :
  (truthy (trim patchContent) = false
   /\ applyPatch this patchContent w
      = (vscode.showWarningMessage "No patch detected." w,
         [EvShowWarningMessage "No patch detected."], Ok tt))
  \/ (truthy (trim patchContent) = true
      /\ first_folder (vscode.workspaceFolders w) = None
      /\ applyPatch this patchContent w
         = (vscode.showErrorMessage "Open a workspace folder first." w,
            [EvShowErrorMessage "Open a workspace folder first."], Ok tt))
  \/ (exists folder err,
         truthy (trim patchContent) = true
         /\ first_folder (vscode.workspaceFolders w) = Some folder
         /\ Diff.parsePatch patchContent = Throw err
         /\ applyPatch this patchContent w
            = (vscode.showErrorMessage ("Cannot read patch: " ++ exn_message err) w,
               [EvParsePatch patchContent;
                EvShowErrorMessage ("Cannot read patch: " ++ exn_message err)],
               Ok tt))
  \/ (exists folder,
         truthy (trim patchContent) = true
         /\ first_folder (vscode.workspaceFolders w) = Some folder
         /\ Diff.parsePatch patchContent = Ok []
         /\ applyPatch this patchContent w
            = (vscode.showWarningMessage "No files found in the patch." w,
               [EvParsePatch patchContent;
                EvShowWarningMessage "No files found in the patch."],
               Ok tt))
  \/ (exists folder files, reaches_loop patchContent w folder files).
Proof.
  destruct (truthy (trim patchContent)) eqn:Htrim.
  2:{ left. split; [reflexivity|]. apply guard_blank, Htrim. }
  destruct (first_folder (vscode.workspaceFolders w)) as [folder|] eqn:Hfolder.
  2:{ right. left. repeat split. apply guard_no_folder; assumption. }
  destruct (Diff.parsePatch patchContent) as [files|err] eqn:Hparse.
  2:{ right. right. left. exists folder, err. repeat split.
      eapply guard_parse_throws; eassumption. }
  destruct files as [|e0 rest].
  { right. right. right. left. exists folder. repeat split.
    eapply guard_no_files; eassumption. }
  right. right. right. right. exists folder, (e0 :: rest).
  repeat split; auto; discriminate.
Qed.

Lemma parsed_of_app (t1 t2 : list (Event P)) :
  parsed_of (t1 ++ t2) = parsed_of t1 ++ parsed_of t2.
Proof. apply flat_map_app. Qed.

Lemma saves_of_app (t1 t2 : list (Event P)) :
  saves_of (t1 ++ t2) = saves_of t1 ++ saves_of t2.
Proof. apply flat_map_app. Qed.

Lemma deliver_app (t1 t2 : list (Event P)) area :
  MainView.deliver (t1 ++ t2) area = MainView.deliver t2 (MainView.deliver t1 area).
Proof. apply fold_left_app. Qed.

(** The calls of the loop are neither calls to the parser nor messages to
    the view. *)
Lemma loop_events_silent (t : list (Event P)) area :
  Forall (fun ev => loop_event ev = true) t ->
  parsed_of t = [] /\ MainView.deliver t area = area.
Proof.
  induction 1 as [|ev t Hev _ [IH1 IH2]]; [split; reflexivity|].
  destruct ev; try discriminate; cbn; auto.
Qed.

Lemma epilogue_silent this c :
  parsed_of (epilogue (P := P) this c) = []
  /\ saves_of (epilogue (P := P) this c) = [].
Proof. unfold epilogue. destruct (view this); split; reflexivity. Qed.

(** X1.  [applyPatch] answers with the warning "No patch detected." and
    nothing else exactly when its input is empty or made of white space
    only. *)
Theorem no_patch_warning_iff_blank this patchContent w :
  trace_of (applyPatch this patchContent w)
  = [EvShowWarningMessage "No patch detected."]
  <-> Spec.whitespace_only patchContent.
Proof.
  split.
  - intros Ht.
    destruct (applyPatch_cases this patchContent w)
      as [[Htrim _]|[(_ & _ & H)|[(f & err & _ & _ & _ & H)|[(f & _ & _ & _ & H)
         |(f & files & Hloop)]]]].
    + apply trim_empty_iff. apply truthy_false, Htrim.
    + rewrite H in Ht. discriminate.
    + rewrite H in Ht. discriminate.
    + rewrite H in Ht. discriminate.
    + destruct (applyPatch_loop this _ _ _ _ Hloop) as (w1 & t & c & _ & H).
      rewrite H in Ht. discriminate.
  - intros Hws. rewrite guard_blank; [reflexivity|].
    apply truthy_false, trim_whitespace, Hws.
Qed.

(** X2.  The parser is called at most once and on the input exactly as it
    was given, white space included: once when the input is not blank and a
    workspace folder is open, not at all otherwise. *)
Theorem parser_sees_input_once this patchContent w :
  parsed_of (trace_of (applyPatch this patchContent w))
  = if truthy (trim patchContent)
       && match first_folder (vscode.workspaceFolders w) with
          | Some _ => true
          | None => false
          end
    then [patchContent]
    else [].
Proof.
  destruct (applyPatch_cases this patchContent w)
    as [[Htrim H]|[(Htrim & Hf & H)|[(f & err & Htrim & Hf & _ & H)
       |[(f & Htrim & Hf & _ & H)|(f & files & Hloop)]]]];
    try (rewrite H, Htrim, ?Hf; reflexivity).
  destruct (applyPatch_loop this _ _ _ _ Hloop) as (w1 & t & c & Hfor & H).
  destruct Hloop as (Htrim & Hf & _). rewrite H, Htrim, Hf.
  cbn [trace_of fst snd andb].
  change (patchContent :: parsed_of (t ++ epilogue this c) = [patchContent]).
  rewrite parsed_of_app, (proj1 (epilogue_silent this c)), app_nil_r.
  pose proof (for_of_events f files no_results w) as Hev. rewrite Hfor in Hev.
  rewrite (proj1 (loop_events_silent t "" Hev)). reflexivity.
Qed.

Lemma applyPatch_returns this patchContent w :
  result_of (applyPatch this patchContent w) = Ok tt.
Proof.
  destruct (applyPatch_cases this patchContent w)
    as [[_ H]|[(_ & _ & H)|[(f & err & _ & _ & _ & H)|[(f & _ & _ & _ & H)
       |(f & files & Hloop)]]]];
    try (rewrite H; reflexivity).
  destruct (applyPatch_loop this _ _ _ _ Hloop) as (w1 & t & c & _ & H).
  rewrite H. reflexivity.
Qed.

(** X3.  None of the extension's entry points throws: [applyPatch], the
    [gitPastePatch.apply] command and the handler of the view's messages
    return normally whatever the parser, the library and the host answer. *)
Theorem entry_points_never_throw this v patchContent msg w :
  result_of (applyPatch this patchContent w) = Ok tt
  /\ result_of (gitPastePatch_apply this w) = Ok tt
  /\ result_of (onDidReceiveMessage this v msg w) = Ok tt.
Proof.
  split; [apply applyPatch_returns|]. split.
  - unfold gitPastePatch_apply, bind, clipboard_readText.
    destruct (vscode.clipboard_readText w) as [w1 text].
    pose proof (applyPatch_returns this text w1) as H.
    destruct (applyPatch this text w1) as [[w2 t] r]. exact H.
  - unfold onDidReceiveMessage, bind, clipboard_readText, fire, ret.
    destruct msg as [[[|] [text|]]|]; cbn;
      try destruct (vscode.clipboard_readText w) as [w1 clip]; cbn;
      try reflexivity;
      pose proof (applyPatch_returns this text w) as H;
      destruct (applyPatch this text w) as [[w2 t] r]; exact H.
Qed.

(** X9.  When the loop is reached and every entry is skipped (a patch that
    only deletes files, say), nothing is opened or edited, and the results
    panel still comes up, with both counters at zero and the text "No details
    available."; the clipboard is cleared all the same. *)
Theorem all_skipped_shows_empty_panel this patchContent w folder files :
  reaches_loop patchContent w folder files ->
  (forall e, In e files -> relPath e = None) ->
  applyPatch this patchContent w
  = (after_loop this no_results w,
     [EvParsePatch patchContent;
      EvCreateWebviewPanel
        {| page_ok := 0; page_ko := 0;
           page_body :=
             ("<p class=" ++ Html.q "muted" ++ ">No details available.</p>")%string |};
      EvClipboardWriteText ""]
     ++ match view this with
        | Some _ => [EvPostMessage msg_clear]
        | None => []
        end,
     Ok tt).
Proof.
  intros Hloop Hskip.
  destruct (applyPatch_loop this _ _ _ _ Hloop) as (w1 & t & c & Hfor & H).
  assert (forall c0 w0, for_of folder files c0 w0 = (w0, [], Ok c0)) as Hnone.
  { clear Hfor H Hloop. induction files as [|e rest IH]; intros c0 w0; [reflexivity|].
    rewrite (for_of_cons folder e rest c0 w0 w0 [] c0).
    - rewrite IH by (intros; apply Hskip; right; assumption). reflexivity.
    - apply for_body_skip, Hskip. left. reflexivity. }
  rewrite Hnone in Hfor. injection Hfor as <- <- <-.
  rewrite H. reflexivity.
Qed.
End MoreRunFacts.

(** ** One iteration, once more *)

Section MoreBodyFacts.
Context {P W : Type} {lib : Diff.Lib P} {host : vscode.Host W}.
Import JsString.

Implicit Types (this : PatchViewProvider) (folder : WorkspaceFolder)
         (c : Counters) (e : P) (w : W).

(** X10.  When the library returns a text but the host answers [false] to
    [applyEdit], the iteration stops there: the entry is reported as "could
    not apply edits", the failure counter goes up, and nothing is re-opened,
    saved or shown. *)
Theorem rejected_edit_is_reported folder c e w rp patched w2 :
  relPath e = Some rp ->
  let u := target folder rp in
  let o := vscode.openTextDocument u w in
  let src := Spec.crlf_to_lf (original_of o) in
  let edit := build_edit u (document_of o) (original_of o) patched in
  Diff.applyPatch src e = Ok (Some patched) ->
  vscode.applyEdit edit (fst o) = (w2, Ok false) ->
  for_body folder c e w
  = (w2,
     [EvOpenTextDocument u; EvDiffApplyPatch src e; EvApplyEdit edit],
     Ok (count_ko c (rp ++ ": could not apply edits."))).
Proof.
  intros Hrp u o src edit Hlib Hedit. subst src edit o.
  rewrite <- replaceAll_crlf in *.
  unfold for_body. rewrite Hrp. fold (target folder rp). fold u.
  unfold document_of, original_of in *. unfold_ext.
  destruct (vscode.openTextDocument u w) as [w1 [d|err]];
    cbn [fst snd] in *; cbn beta iota zeta;
    rewrite Hlib; cbn beta iota zeta; rewrite Hedit; reflexivity.
Qed.

(** X11.  An entry is counted as applied only after exactly one document
    was saved, and the message says which of the two cases it was: "patched
    and saved" (kind "ok") when the target could be opened, "created and
    patched" (kind "new") when opening it failed.  The failure counter is
    left alone. *)
Theorem applied_entry_was_saved folder c e w w' t c' :
  for_body folder c e w = (w', t, Ok c') ->
  ok c' = S (ok c) ->
  exists rp u,
    relPath e = Some rp
    /\ ko c' = ko c
    /\ saves_of t = [u]
    /\ messages c'
       = messages c
           ++ [match document_of (vscode.openTextDocument (target folder rp) w) with
               | Some _ => {| kind := kind_ok; text := rp ++ ": patched and saved." |}
               | None => {| kind := kind_new; text := rp ++ ": created and patched." |}
               end].
Proof.
  intros Hrun Hok.
  destruct (relPath e) as [rp|] eqn:Hrp.
  2:{ rewrite (for_body_skip _ _ _ _ Hrp) in Hrun. injection Hrun as <- <- <-. lia. }
  exists rp. unfold for_body in Hrun. rewrite Hrp in Hrun.
  unfold document_of, target. unfold_ext.
  answers; cbn in Hok; try lia; eexists; repeat split; reflexivity.
Qed.

(** What one iteration adds: at most one edit, a save only after an edit, a
    success only after a save. *)
Lemma for_body_counts folder c e w w' t c' :
  for_body folder c e w = (w', t, Ok c') ->
  ok c' <= ok c + length (saves_of t)
  /\ length (saves_of t) <= length (edits_of t)
  /\ length (edits_of t) + length (messages c) <= length (messages c').
Proof.
  intros Hrun. unfold_ext.
  answers; cbn; rewrite ?length_app; cbn; lia.
Qed.

Lemma for_of_counts folder files c w w' t c' :
  for_of folder files c w = (w', t, Ok c') ->
  ok c' <= ok c + length (saves_of t)
  /\ length (saves_of t) <= length (edits_of t)
  /\ length (edits_of t) + length (messages c) <= length (messages c').
Proof.
  revert c w w' t c'. induction files as [|e rest IH]; intros c w w' t c' Hrun.
  - cbn in Hrun. unfold ret in Hrun. injection Hrun as <- <- <-. cbn. lia.
  - destruct (for_body_returns folder c e w) as (w1 & t1 & c1 & H1).
    rewrite (for_of_cons _ _ _ _ _ _ _ _ H1) in Hrun.
    destruct (for_of folder rest c1 w1) as [[w2 t2] r2] eqn:H2.
    cbn in Hrun. injection Hrun as -> <- ->.
    pose proof (for_body_counts _ _ _ _ _ _ _ H1).
    pose proof (IH _ _ _ _ _ H2).
    rewrite saves_of_app, edits_of_app, !length_app. lia.
Qed.

(** X12.  When the loop is reached: the successes shown in the panel are at
    most the documents saved, those at most the edits submitted, and those
    at most the messages listed.  Nothing is saved that was not edited, and
    no success is reported without a save. *)
Theorem successes_saves_edits_messages this patchContent w folder files :
  reaches_loop patchContent w folder files ->
  exists t c,
    trace_of (applyPatch this patchContent w)
    = EvParsePatch patchContent :: t ++ epilogue this c
    /\ ok c <= length (saves_of (trace_of (applyPatch this patchContent w)))
    /\ length (saves_of (trace_of (applyPatch this patchContent w)))
       <= length (edits_of (trace_of (applyPatch this patchContent w)))
    /\ length (edits_of (trace_of (applyPatch this patchContent w)))
       <= length (messages c).
Proof.
  intros Hloop.
  destruct (applyPatch_loop this _ _ _ _ Hloop) as (w1 & t & c & Hfor & H).
  exists t, c. rewrite H. cbn [trace_of fst snd]. split; [reflexivity|].
  change (saves_of (EvParsePatch patchContent :: t ++ epilogue this c))
    with (saves_of (t ++ epilogue this c)).
  change (edits_of (EvParsePatch patchContent :: t ++ epilogue this c))
    with (edits_of (t ++ epilogue this c)).
  rewrite saves_of_app, edits_of_app, (proj2 (epilogue_silent this c)),
    (proj2 (epilogue_no_library_call this c)), !app_nil_r.
  pose proof (for_of_counts _ _ _ _ _ _ _ Hfor) as Hc. cbn in Hc. lia.
Qed.

(** What an iteration does to the host does not depend on the counters. *)
Lemma for_body_ignores_counters folder c1 c2 e w :
  world_of (for_body folder c1 e w) = world_of (for_body folder c2 e w)
  /\ trace_of (for_body folder c1 e w) = trace_of (for_body folder c2 e w).
Proof.
  unfold world_of, trace_of. unfold_ext. answers; split; reflexivity.
Qed.

Lemma for_of_ignores_counters folder files c1 c2 w :
  world_of (for_of folder files c1 w) = world_of (for_of folder files c2 w)
  /\ trace_of (for_of folder files c1 w) = trace_of (for_of folder files c2 w).
Proof.
  revert c1 c2 w. induction files as [|e rest IH]; intros c1 c2 w;
    [split; reflexivity|].
  destruct (for_body_returns folder c1 e w) as (w1 & t1 & d1 & H1).
  destruct (for_body_returns folder c2 e w) as (w2 & t2 & d2 & H2).
  destruct (for_body_ignores_counters folder c1 c2 e w) as [Hw Ht].
  rewrite H1, H2 in Hw, Ht. cbn in Hw, Ht. subst w2 t2.
  rewrite (for_of_cons _ _ _ _ _ _ _ _ H1), (for_of_cons _ _ _ _ _ _ _ _ H2).
  destruct (IH d1 d2 w1) as [IHw IHt].
  destruct (for_of folder rest d1 w1) as [[w3 t3] r3].
  destruct (for_of folder rest d2 w1) as [[w4 t4] r4].
  cbn in *. subst. split; reflexivity.
Qed.

(** X13.  How the loop treats the host does not depend on the results so
    far: from the same host state, the same entries lead to the same calls
    and the same final state whatever the counters and messages are, so a
    failure never changes how the entries after it are handled. *)
Theorem loop_ignores_earlier_results folder files c1 c2 w :
  world_of (for_of folder files c1 w) = world_of (for_of folder files c2 w)
  /\ trace_of (for_of folder files c1 w) = trace_of (for_of folder files c2 w).
Proof. apply for_of_ignores_counters. Qed.

Lemma for_of_app folder files1 files2 c w :
  for_of folder (files1 ++ files2) c w
  = bind (for_of folder files1 c) (for_of folder files2) w.
Proof.
  revert c w. induction files1 as [|e rest IH]; intros c w.
  - cbn. unfold bind, ret.
    destruct (for_of folder files2 c w) as [[w2 t2] r2]. reflexivity.
  - cbn [app for_of]. unfold bind.
    destruct (for_body folder c e w) as [[w1 t1] [c1|err]]; [|reflexivity].
    rewrite IH. unfold bind.
    destruct (for_of folder rest c1 w1) as [[w2 t2] [c2|err]]; [|reflexivity].
    destruct (for_of folder files2 c2 w2) as [[w3 t3] r3].
    rewrite app_assoc. reflexivity.
Qed.

(** X14.  Handling the entries of one list is, for the host, handling a
    first part of them and then the rest as if it were a patch of its own,
    started in the host state the first part left. *)
Theorem loop_splits_at_any_entry folder files1 files2 c w :
  let first := for_of folder files1 c w in
  let rest := for_of folder files2 no_results (world_of first) in
  trace_of (for_of folder (files1 ++ files2) c w) = trace_of first ++ trace_of rest
  /\ world_of (for_of folder (files1 ++ files2) c w) = world_of rest.
Proof.
  cbn zeta. rewrite for_of_app. unfold bind.
  destruct (for_of_returns folder files1 c w) as (w1 & t1 & c1 & H1).
  rewrite H1. cbn [world_of trace_of fst snd].
  destruct (for_of_ignores_counters folder files2 c1 no_results w1) as [Hw Ht].
  destruct (for_of folder files2 c1 w1) as [[w2 t2] r2].
  cbn in Hw, Ht. cbn [fst snd]. rewrite <- Hw, <- Ht. split; reflexivity.
Qed.
End MoreBodyFacts.

(** ** The input view *)

Section ViewFacts.
Context {P W : Type} {lib : Diff.Lib P} {host : vscode.Host W}.
Import JsString.

Implicit Types (this : PatchViewProvider) (v : WebviewView) (w : W).

Lemma on_message_fill text area :
  MainView.on_message (msg_fill text) area = MainView.normalize_newlines text.
Proof. destruct text; reflexivity. Qed.

Lemma normalize_newlines_no_cr s :
  (forall c, In c (list_ascii_of_string s) -> c <> CR) ->
  MainView.normalize_newlines s = s.
Proof.
  induction s as [|c s IH]; [reflexivity|]. intros H.
  cbn [MainView.normalize_newlines].
  replace (Ascii.eqb c CR) with false.
  - rewrite IH; [reflexivity|]. intros d Hd. apply H. right. exact Hd.
  - symmetry. apply Ascii.eqb_neq. apply H. left. reflexivity.
Qed.

Lemma normalize_newlines_cons c s :
  MainView.normalize_newlines (String c s)
  = if Ascii.eqb c CR
    then match s with
         | String d s' =>
             if Ascii.eqb d LF
             then String LF (MainView.normalize_newlines s')
             else String LF (MainView.normalize_newlines s)
         | EmptyString => String LF EmptyString
         end
    else String c (MainView.normalize_newlines s).
Proof. reflexivity. Qed.

(** What a text area hands out holds no CR. *)
Lemma normalize_newlines_clean s :
  ~ In CR (list_ascii_of_string (MainView.normalize_newlines s)).
Proof.
  assert (H : (~ In CR (list_ascii_of_string (MainView.normalize_newlines s)))
              /\ forall c,
                  ~ In CR (list_ascii_of_string
                             (MainView.normalize_newlines (String c s))));
    [|apply H].
  induction s as [|d s [IH1 IH2]].
  - split; [intros []|]. intros c. rewrite normalize_newlines_cons.
    destruct (Ascii.eqb c CR) eqn:Hc; cbn; intros [H|[]];
      [discriminate|]. subst c. discriminate.
  - split; [apply IH2|]. intros c. rewrite normalize_newlines_cons.
    destruct (Ascii.eqb c CR) eqn:Hc.
    + destruct (Ascii.eqb d LF);
        cbn [list_ascii_of_string]; intros [H|H]; try discriminate;
        [exact (IH1 H)|exact (IH2 d H)].
    + cbn [list_ascii_of_string]. intros [H|H]; [|exact (IH2 d H)].
      subst c. discriminate.
Qed.

Lemma paste_fills_text_area_aux this v w area :
  MainView.deliver
    (trace_of (onDidReceiveMessage this v (Some MainView.pasteButton_click) w)) area
  = MainView.normalize_newlines (snd (vscode.clipboard_readText w))
  /\ world_of (onDidReceiveMessage this v (Some MainView.pasteButton_click) w)
     = vscode.postMessage v (msg_fill (snd (vscode.clipboard_readText w)))
         (fst (vscode.clipboard_readText w)).
Proof.
  unfold onDidReceiveMessage, bind, clipboard_readText, fire, ret.
  cbn [MainView.pasteButton_click msg_type msg_text].
  destruct (vscode.clipboard_readText w) as [w1 clip].
  cbn [trace_of world_of fst snd app MainView.deliver fold_left].
  split; [apply (on_message_fill clip area)|reflexivity].
Qed.

(** X15.  On the Paste button's message the handler reads the clipboard,
    posts the text read to the view, and does nothing else (no parsing, no
    edit, no write to the clipboard).  Whatever the text area held, its value
    is then the text read with its line ends as a text area gives them: CR LF
    and lone CR turned into LF.  It holds no CR, and it is the very text read
    when that holds no CR. *)
Theorem paste_fills_text_area this v w area :
  let r := onDidReceiveMessage this v (Some MainView.pasteButton_click) w in
  let read := vscode.clipboard_readText w in
  trace_of r = [EvClipboardReadText; EvPostMessage (msg_fill (snd read))]
  /\ world_of r = vscode.postMessage v (msg_fill (snd read)) (fst read)
  /\ MainView.deliver (trace_of r) area = MainView.normalize_newlines (snd read)
  /\ ~ In CR (list_ascii_of_string (MainView.deliver (trace_of r) area))
  /\ ((forall c, In c (list_ascii_of_string (snd read)) -> c <> CR) ->
      MainView.deliver (trace_of r) area = snd read).
Proof.
  cbn zeta.
  destruct (paste_fills_text_area_aux this v w area) as [Ha Hw].
  rewrite Ha, Hw.
  split.
  { unfold onDidReceiveMessage, bind, clipboard_readText, fire, ret.
    cbn. destruct (vscode.clipboard_readText w) as [w1 clip]. reflexivity. }
  repeat split; [apply normalize_newlines_clean|apply normalize_newlines_no_cr].
Qed.

(** X16.  Paste followed by Apply: after the Paste button filled the text
    area, the Apply button makes the extension run [applyPatch] on the text
    that was read from the clipboard with CR LF and lone CR turned into LF,
    as the text area hands it out; on exactly the text read when that holds
    no CR. *)
Theorem paste_then_apply_applies_clipboard this v w area :
  let r := onDidReceiveMessage this v (Some MainView.pasteButton_click) w in
  let area' := MainView.deliver (trace_of r) area in
  let clip := snd (vscode.clipboard_readText w) in
  onDidReceiveMessage this v (Some (MainView.applyButton_click area')) (world_of r)
  = applyPatch this (MainView.normalize_newlines clip) (world_of r)
  /\ ((forall c, In c (list_ascii_of_string clip) -> c <> CR) ->
      onDidReceiveMessage this v (Some (MainView.applyButton_click area'))
        (world_of r)
      = applyPatch this clip (world_of r)).
Proof.
  cbn zeta.
  assert (onDidReceiveMessage this v
            (Some (MainView.applyButton_click
                     (MainView.deliver
                        (trace_of (onDidReceiveMessage this v
                                     (Some MainView.pasteButton_click) w)) area)))
            (world_of (onDidReceiveMessage this v
                         (Some MainView.pasteButton_click) w))
          = applyPatch this
              (MainView.normalize_newlines (snd (vscode.clipboard_readText w)))
              (world_of (onDidReceiveMessage this v
                           (Some MainView.pasteButton_click) w))) as H.
  { destruct (paste_fills_text_area_aux this v w area) as [Ha Hw]. rewrite Ha, Hw.
    unfold MainView.applyButton_click, onDidReceiveMessage, bind, ret. cbn.
    match goal with
    | |- context [applyPatch ?t ?s ?x] =>
        destruct (applyPatch t s x) as [[w2 t2] r2]
    end.
    reflexivity. }
  split; [exact H|]. intros Hclean. rewrite H.
  rewrite (normalize_newlines_no_cr _ Hclean). reflexivity.
Qed.

(** X17.  After a run that reached the loop, the text area is empty when the
    provider holds the view, and in particular once [resolveWebviewView] has
    run; with no view it is left as it was. *)
Theorem text_area_after_run this v patchContent w folder files area :
  reaches_loop patchContent w folder files ->
  MainView.deliver (trace_of (applyPatch this patchContent w)) area
  = match view this with Some _ => "" | None => area end
  /\ MainView.deliver
       (trace_of (applyPatch (resolveWebviewView this v) patchContent w)) area
     = "".
Proof.
  intros Hloop.
  assert (forall that,
             MainView.deliver (trace_of (applyPatch that patchContent w)) area
             = match view that with Some _ => "" | None => area end) as H.
  { intros that.
    destruct (applyPatch_loop that _ _ _ _ Hloop) as (w1 & t & c & Hfor & H).
    rewrite H. cbn [trace_of fst snd].
    change (MainView.deliver (t ++ epilogue that c) area
            = match view that with Some _ => "" | None => area end).
    rewrite deliver_app.
    pose proof (for_of_events folder files no_results w) as Hev.
    rewrite Hfor in Hev.
    rewrite (proj2 (loop_events_silent t area Hev)).
    unfold epilogue. destruct (view that); reflexivity. }
  split; [apply H|]. rewrite H. reflexivity.
Qed.

(** X18.  When a guard stops [applyPatch] (blank input, no folder, parser
    error, no entry), nothing is posted to the view: the text the user typed
    or pasted stays in the text area. *)
Theorem text_area_kept_when_rejected this patchContent w area :
  Spec.whitespace_only patchContent
  \/ first_folder (vscode.workspaceFolders w) = None
  \/ (exists err, Diff.parsePatch patchContent = Throw err)
  \/ Diff.parsePatch patchContent = Ok [] ->
  MainView.deliver (trace_of (applyPatch this patchContent w)) area = area.
Proof.
  intros Hguard.
  destruct (applyPatch_cases this patchContent w)
    as [[_ H]|[(_ & _ & H)|[(f & err & _ & _ & _ & H)|[(f & _ & _ & _ & H)
       |(f & files & Htrim & Hf & Hparse & Hne)]]]];
    try (rewrite H; reflexivity).
  exfalso. destruct Hguard as [Hws|[Hnone|[[err Herr]|Hempty]]]; try congruence.
  rewrite (trim_whitespace _ Hws) in Htrim. discriminate.
Qed.
End ViewFacts.

(** ** Which message, and the command run twice *)

Section MoreGuardFacts.
Context {P W : Type} {lib : Diff.Lib P} {host : vscode.Host W}.
Import JsString.

Implicit Types (this : PatchViewProvider) (w : W).

Lemma not_blank_truthy patchContent :
  ~ Spec.whitespace_only patchContent -> truthy (trim patchContent) = true.
Proof.
  intros H. destruct (truthy (trim patchContent)) eqn:Ht; [reflexivity|].
  exfalso. apply H, trim_empty_iff, truthy_false, Ht.
Qed.

(** X19.  The guards are tried in a fixed order and each has its message.
    With an input that is not blank: if no folder is open the error is "Open
    a workspace folder first." and the parser is not even called; if the
    parser throws, the error shown is "Cannot read patch: " followed by the
    message of what it threw; if the parser returns no entry, the warning is
    "No files found in the patch.". *)
Theorem guard_messages_in_order this patchContent w :
  ~ Spec.whitespace_only patchContent ->
  (first_folder (vscode.workspaceFolders w) = None ->
   trace_of (applyPatch this patchContent w)
   = [EvShowErrorMessage "Open a workspace folder first."])
  /\ (forall folder err,
         first_folder (vscode.workspaceFolders w) = Some folder ->
         Diff.parsePatch patchContent = Throw err ->
         host_calls (trace_of (applyPatch this patchContent w))
         = [EvShowErrorMessage ("Cannot read patch: " ++ exn_message err)])
  /\ (forall folder,
         first_folder (vscode.workspaceFolders w) = Some folder ->
         Diff.parsePatch patchContent = Ok [] ->
         host_calls (trace_of (applyPatch this patchContent w))
         = [EvShowWarningMessage "No files found in the patch."]).
Proof.
  intros Hnb. apply not_blank_truthy in Hnb. repeat split.
  - intros Hf. rewrite guard_no_folder by assumption. reflexivity.
  - intros folder err Hf Hp.
    rewrite (guard_parse_throws _ _ _ _ _ Hnb Hf Hp). reflexivity.
  - intros folder Hf Hp.
    rewrite (guard_no_files _ _ _ _ Hnb Hf Hp). reflexivity.
Qed.

(** X20.  A patch is not applied twice by accident: on a host whose
    clipboard behaves as a clipboard, once the [gitPastePatch.apply] command
    has run over a clipboard text that reached the loop, running the command
    again only reads the clipboard and warns "No patch detected.". *)
Theorem command_twice_finds_nothing (clip : W -> string) this w folder files :
  ClipboardContract clip ->
  reaches_loop (snd (vscode.clipboard_readText w))
    (fst (vscode.clipboard_readText w)) folder files ->
  trace_of (gitPastePatch_apply this (world_of (gitPastePatch_apply this w)))
  = [EvClipboardReadText; EvShowWarningMessage "No patch detected."].
Proof.
  intros HC Hloop.
  destruct (applyPatch_loop this _ _ _ _ Hloop) as (w1 & t & c & _ & Hrun).
  assert (world_of (gitPastePatch_apply this w) = after_loop this c w1) as ->.
  { unfold gitPastePatch_apply, bind, clipboard_readText.
    destruct (vscode.clipboard_readText w) as [w0 text]. cbn [fst snd] in Hrun.
    rewrite Hrun. reflexivity. }
  assert (clip (after_loop this c w1) = "") as Hclip.
  { unfold after_loop. destruct (view this);
      rewrite ?(post_keeps_content _ HC); apply (write_sets_content _ HC). }
  pose proof (read_returns_content _ HC (after_loop this c w1)) as Hread.
  rewrite Hclip in Hread.
  unfold gitPastePatch_apply, bind, clipboard_readText.
  destruct (vscode.clipboard_readText (after_loop this c w1)) as [w2 text].
  cbn [snd] in Hread. subst text.
  rewrite guard_blank by reflexivity. reflexivity.
Qed.
End MoreGuardFacts.

(** ** The further properties on the small host *)

Section MoreWitnesses.
Import Sim Scenario Cases.
Local Open Scope string_scope.

Lemma normalization_keeps_lf_text_witness :
  JsString.replaceAll ("one" ++ lf ++ "two" ++ lf) crlf lf
  = "one" ++ lf ++ "two" ++ lf.
Proof.
  apply normalization_keeps_lf_text.
  intros c Hin ->. vm_compute in Hin. intuition discriminate.
Defined.

Lemma normalization_of_append_witness :
  JsString.replaceAll (("one" ++ crlf) ++ ("two" ++ crlf)) crlf lf
  = JsString.replaceAll ("one" ++ crlf) crlf lf
    ++ JsString.replaceAll ("two" ++ crlf) crlf lf.
Proof.
  apply normalization_of_append. intros r. vm_compute. discriminate.
Defined.

Lemma relPath_has_no_backslash_witness :
  relPath (lib := lib) patch_git = Some "src/main.c"
  /\ ~ In "\"%char (list_ascii_of_string "src/main.c").
Proof.
  split; [reflexivity|].
  apply (relPath_has_no_backslash (lib := lib) patch_git). reflexivity.
Defined.

Lemma git_new_name_resolves_to_path_witness :
  Diff.newFileName (Lib := lib) patch_git = Some ("b/" ++ "src\main.c")
  /\ relPath (lib := lib) patch_git = Some "src/main.c".
Proof.
  split; [reflexivity|].
  apply (git_new_name_resolves_to_path (lib := lib) patch_git "src\main.c").
  reflexivity.
Defined.

Lemma deletions_reach_loop :
  reaches_loop (lib := lib_deletions) (host := Sim.host) "deletions" world0 root
    [patch_del; patch_del].
Proof. repeat split. discriminate. Qed.

Lemma all_skipped_shows_empty_panel_witness :
  reaches_loop (lib := lib_deletions) (host := Sim.host) "deletions" world0 root
    [patch_del; patch_del]
  /\ host_calls
       (trace_of (applyPatch (lib := lib_deletions) (host := Sim.host)
                    provider0 "deletions" world0))
     = [EvCreateWebviewPanel
          {| page_ok := 0; page_ko := 0;
             page_body := "<p class=" ++ Html.q "muted" ++ ">No details available.</p>" |};
        EvClipboardWriteText ""].
Proof.
  split; [exact deletions_reach_loop|].
  rewrite (all_skipped_shows_empty_panel (lib := lib_deletions) (host := Sim.host)
             provider0 "deletions" world0 root [patch_del; patch_del]
             deletions_reach_loop).
  - reflexivity.
  - intros e [<-|[<-|[]]]; reflexivity.
Defined.

Lemma rejected_edit_is_reported_witness :
  result_of (body no_results patch_x world_rejecting)
  = Ok (count_ko no_results "x.txt: could not apply edits.")
  /\ saves_of (trace_of (body no_results patch_x world_rejecting)) = [].
Proof.
  unfold body.
  rewrite (rejected_edit_is_reported (lib := lib) (host := Sim.host)
             root no_results patch_x world_rejecting "x.txt"
             ("one" ++ lf ++ "2" ++ lf) world_rejecting);
    [split; reflexivity|reflexivity..].
Defined.

Lemma applied_entry_was_saved_witness :
  exists m,
    messages (count_ok no_results kind_new "new.txt: created and patched.")
    = [m]
    /\ kind m = kind_new
    /\ saves_of (trace_of (body no_results patch_new world0))
       = ["file:///ws/new.txt"].
Proof.
  destruct (applied_entry_was_saved (lib := lib) (host := Sim.host)
              root no_results patch_new world0
              (world_of (body no_results patch_new world0))
              (trace_of (body no_results patch_new world0))
              (count_ok no_results kind_new "new.txt: created and patched."))
    as (rp & u & Hrp & _ & Hsave & Hmsg).
  - vm_compute. reflexivity.
  - vm_compute. reflexivity.
  - eexists. split; [reflexivity|]. split; [reflexivity|].
    rewrite Hsave. vm_compute in Hsave. exact (eq_sym Hsave).
Defined.

Lemma successes_saves_edits_messages_witness :
  reaches_loop (lib := lib) (host := Sim.host) "patch-1" world0 root
    [patch_x; patch_del; patch_new; patch_stale]
  /\ exists t c,
      trace_of (run provider1 "patch-1" world0)
      = EvParsePatch "patch-1" :: t ++ epilogue provider1 c
      /\ ok c <= 2
      /\ 2 <= length (messages c).
Proof.
  split; [exact patch_1_reaches_loop|].
  destruct (successes_saves_edits_messages (lib := lib) (host := Sim.host)
              provider1 "patch-1" world0 root _ patch_1_reaches_loop)
    as (t & c & Ht & Hs & _ & Hm).
  exists t, c. split; [exact Ht|]. split; [exact Hs|exact Hm].
Defined.

Lemma text_area_after_run_witness :
  reaches_loop (lib := lib) (host := Sim.host) "patch-1" world0 root
    [patch_x; patch_del; patch_new; patch_stale]
  /\ MainView.deliver (trace_of (run provider1 "patch-1" world0)) "patch-1" = ""
  /\ MainView.deliver (trace_of (run provider0 "patch-1" world0)) "patch-1"
     = "patch-1".
Proof.
  split; [exact patch_1_reaches_loop|]. split.
  - exact (proj1 (text_area_after_run (lib := lib) (host := Sim.host)
                    provider1 {| view_id := 1 |} "patch-1" world0 root _ "patch-1"
                    patch_1_reaches_loop)).
  - exact (proj1 (text_area_after_run (lib := lib) (host := Sim.host)
                    provider0 {| view_id := 1 |} "patch-1" world0 root _ "patch-1"
                    patch_1_reaches_loop)).
Defined.

Lemma text_area_kept_when_rejected_witness :
  (exists err, Diff.parsePatch (Lib := lib) "garbage" = Throw err)
  /\ MainView.deliver (trace_of (run provider1 "garbage" world0)) "garbage"
     = "garbage".
Proof.
  assert (exists err, Diff.parsePatch (Lib := lib) "garbage" = Throw err) as H
      by (eexists; reflexivity).
  split; [exact H|].
  apply (text_area_kept_when_rejected (lib := lib) (host := Sim.host)).
  right. right. left. exact H.
Defined.

Lemma guard_messages_in_order_witness :
  ~ Spec.whitespace_only "garbage"
  /\ host_calls (trace_of (run provider1 "garbage" world0))
     = [EvShowErrorMessage "Cannot read patch: Unknown line 1"].
Proof.
  assert (~ Spec.whitespace_only "garbage") as Hnb.
  { intros H. inversion H as [|? ? Hc _]. vm_compute in Hc. discriminate. }
  split; [exact Hnb|].
  destruct (guard_messages_in_order (lib := lib) (host := Sim.host)
              provider1 "garbage" world0 Hnb) as (_ & Hthrow & _).
  exact (Hthrow root _ eq_refl eq_refl).
Defined.

Lemma sim_clipboard : ClipboardContract (host := Sim.host) clipboard.
Proof. constructor; reflexivity. Qed.

Lemma command_twice_finds_nothing_witness :
  ClipboardContract (host := Sim.host) clipboard
  /\ trace_of
       (gitPastePatch_apply (lib := lib) (host := Sim.host) provider1
          (world_of
             (gitPastePatch_apply (lib := lib) (host := Sim.host) provider1 world0)))
     = [EvClipboardReadText; EvShowWarningMessage "No patch detected."].
Proof.
  split; [exact sim_clipboard|].
  exact (command_twice_finds_nothing (lib := lib) (host := Sim.host)
           clipboard provider1 world0 root _ sim_clipboard patch_1_reaches_loop).
Defined.
Lemma clipboard_without_cr c :
  In c (list_ascii_of_string (clipboard world0)) -> c <> JsString.CR.
Proof. intros Hin ->. vm_compute in Hin. intuition discriminate. Qed.

Lemma paste_fills_text_area_witness :
  MainView.deliver
    (trace_of (onDidReceiveMessage (lib := lib) (host := Sim.host) provider1
                 {| view_id := 1 |} (Some MainView.pasteButton_click)
                 world_windows)) "old text"
  = "patch-1" ++ lf
  /\ MainView.deliver
       (trace_of (onDidReceiveMessage (lib := lib) (host := Sim.host) provider1
                    {| view_id := 1 |} (Some MainView.pasteButton_click)
                    world0)) "old text"
     = "patch-1".
Proof.
  split.
  - destruct (paste_fills_text_area (lib := lib) (host := Sim.host) provider1
                {| view_id := 1 |} world_windows "old text")
      as (_ & _ & Harea & _).
    rewrite Harea. reflexivity.
  - destruct (paste_fills_text_area (lib := lib) (host := Sim.host) provider1
                {| view_id := 1 |} world0 "old text")
      as (_ & _ & _ & _ & Hsame).
    rewrite (Hsame clipboard_without_cr). reflexivity.
Defined.

Lemma paste_then_apply_applies_clipboard_witness :
  let pasted :=
    onDidReceiveMessage (lib := lib) (host := Sim.host) provider1
      {| view_id := 1 |} (Some MainView.pasteButton_click) world0 in
  onDidReceiveMessage (lib := lib) (host := Sim.host) provider1 {| view_id := 1 |}
    (Some (MainView.applyButton_click
             (MainView.deliver (trace_of pasted) "old text")))
    (world_of pasted)
  = run provider1 "patch-1" (world_of pasted).
Proof.
  cbn zeta.
  destruct (paste_then_apply_applies_clipboard (lib := lib) (host := Sim.host)
              provider1 {| view_id := 1 |} world0 "old text") as [_ Hsame].
  rewrite (Hsame clipboard_without_cr). reflexivity.
Defined.
End MoreWitnesses.
